(** * Car recommendation assistant: routing, direct lookup and fallback policy

    A shallow embedding of [app.py] (console entry point, direct lookup,
    start-up configuration) and [ui.py] (web form) and the properties of
    their request policy.

    Python text is a list of Unicode code points.  Everything outside the
    two files (the LLM client, the HTTP library, the crew scheduler, the
    [json] module, [str.lower]) is a collaborator: it is either an oracle
    of the [World] or an operation of the [PyLib] record, and every call
    to a service is recorded in the trace of the run.  The agents and
    tasks of [app.py] are fixed arguments of the crew and live inside its
    oracle.

    Showing a value can fail.  Standard output is taken to encode as
    UTF-8 with strict errors, so [print] raises [UnicodeEncodeError] on
    text that holds a surrogate code point; whether a Streamlit element
    that carries a value of the run is refused is an oracle of the
    [World].  A call that raises is still recorded in the trace, as the
    attempt it was. *)

From stdpp Require Import base gmap list.
From Stdlib Require Import NArith ZArith QArith String Ascii DecimalString Lia.

Local Open Scope N_scope.
Local Open Scope list_scope.
Local Set Warnings "-register-all".

(** ** Python values *)

Module Py.

(** A Python [str]: its code points. *)
Abbreviation str := (list N).

(** An ASCII literal of the source as code points. *)
Definition lit (s : string) : str :=
  List.map N_of_ascii (list_ascii_of_string s).

(** The line feed written [\n] in the source. *)
Definition nl : str := [0x0A].

(** [str.isspace] on one code point, the test behind [split()] and
    [strip()] without arguments. *)
Definition isspace (c : N) : bool :=
  ((0x09 <=? c) && (c <=? 0x0D))
  || ((0x1C <=? c) && (c <=? 0x20))
  || (c =? 0x85) || (c =? 0xA0) || (c =? 0x1680)
  || ((0x2000 <=? c) && (c <=? 0x200A))
  || (c =? 0x2028) || (c =? 0x2029) || (c =? 0x202F)
  || (c =? 0x205F) || (c =? 0x3000).

Fixpoint lstrip (s : str) : str :=
  match s with
  | [] => []
  | c :: s' => if isspace c then lstrip s' else s
  end.

Definition rstrip (s : str) : str := rev (lstrip (rev s)).

(** [s.strip()] *)
Definition strip (s : str) : str := rstrip (lstrip s).

(** [s.split()]: the maximal runs of non-space code points, in order.
    [tok] is the run being read, last code point first. *)
Fixpoint split_from (tok : str) (s : str) : list str :=
  match s with
  | [] => match tok with [] => [] | _ => [rev tok] end
  | c :: s' =>
      if isspace c
      then match tok with
           | [] => split_from [] s'
           | _ => rev tok :: split_from [] s'
           end
      else split_from (c :: tok) s'
  end.

Definition split (s : str) : list str := split_from [] s.

(** [not s] for a string. *)
Definition is_empty (s : str) : bool :=
  match s with [] => true | _ => false end.

(** A value decoded from JSON, or a Python value of the same shape:
    [None], [bool], [int], [float] (kept as its literal), [str], [list]
    and [dict] with string keys, in insertion order. *)
Inductive json : Type :=
| JNull
| JBool (b : bool)
| JInt (z : Z)
| JFloat (literal : str)
| JStr (s : str)
| JArr (items : list json)
| JObj (fields : list (str * json)).

(** Any Python value the code handles: a JSON-shaped value, or some
    other object (a crew output, an exception), known by its [str()]. *)
Inductive pyval : Type :=
| VJson (j : json)
| VObj (text : str).

Definition VStr (s : str) : pyval := VJson (JStr s).

(** What unwinds the stack.  [Exception] stands for every instance of
    the class [Exception], with its [str()]; [StopException] is the
    signal of [st.stop()], which is a [BaseException] only. *)
Inductive signal : Type :=
| Exception (msg : str)
| StopException.

Inductive result (A : Type) : Type :=
| Ok (a : A)
| Raise (e : signal).
Arguments Ok {A} a.
Arguments Raise {A} e.

(** What a collaborator answers: a value, or an [Exception]. *)
Inductive outcome (A : Type) : Type :=
| Returned (a : A)
| Failed (msg : str).
Arguments Returned {A} a.
Arguments Failed {A} msg.

Definition of_outcome {A} (o : outcome A) : result A :=
  match o with
  | Returned a => Ok a
  | Failed msg => Raise (Exception msg)
  end.

Fixpoint dict_get (fields : list (str * json)) (k : str) : option json :=
  match fields with
  | [] => None
  | (k', v) :: rest => if decide (k' = k) then Some v else dict_get rest k
  end.

(** [d[k]] for a string key [k]. *)
Definition getitem_key (d : json) (k : str) : result json :=
  match d with
  | JObj fields =>
      match dict_get fields k with
      | Some v => Ok v
      | None => Raise (Exception (lit "'" ++ k ++ lit "'"))
      end
  | JArr _ =>
      Raise (Exception (lit "list indices must be integers or slices, not str"))
  | JStr _ =>
      Raise (Exception (lit "string indices must be integers, not 'str'"))
  | _ => Raise (Exception (lit "object is not subscriptable"))
  end.

(** [d[0]].  A dict decoded from JSON has string keys only, so [0] is
    never one of them; a string yields its first character. *)
Definition getitem_0 (d : json) : result json :=
  match d with
  | JArr (x :: _) => Ok x
  | JArr [] => Raise (Exception (lit "list index out of range"))
  | JStr (c :: _) => Ok (JStr [c])
  | JStr [] => Raise (Exception (lit "string index out of range"))
  | JObj _ => Raise (Exception (lit "0"))
  | _ => Raise (Exception (lit "object is not subscriptable"))
  end.

(** *** What [print] can write

    Standard output encodes as UTF-8 and refuses surrogate code points. *)

Definition is_surrogate (c : N) : bool := (0xD800 <=? c) && (c <=? 0xDFFF).

Definition has_surrogate (s : str) : bool := existsb is_surrogate s.

(** The surrogates [s] starts with. *)
Fixpoint surrogate_run (s : str) : nat :=
  match s with
  | c :: s' => if is_surrogate c then S (surrogate_run s') else O
  | [] => O
  end.

(** The first surrogate of [s], read from index [i]: where it stands,
    what it is and how many follow it without a gap. *)
Fixpoint first_surrogate (s : str) (i : nat) : option (nat * N * nat) :=
  match s with
  | [] => None
  | c :: s' =>
      if is_surrogate c then Some (i, c, surrogate_run s')
      else first_surrogate s' (S i)
  end.

Definition decimal (n : nat) : str :=
  lit (NilEmpty.string_of_uint (Nat.to_uint n)).

Definition hex_digit (d : N) : N :=
  if d <? 10 then 0x30 + d else 0x57 + d.

Definition hex4 (c : N) : str :=
  [ hex_digit (c / 0x1000 mod 16); hex_digit (c / 0x100 mod 16);
    hex_digit (c / 0x10 mod 16); hex_digit (c mod 16) ].

(** [str(e)] for the [UnicodeEncodeError] that writing [s] raises. *)
Definition encode_error_text (s : str) : str :=
  match first_surrogate s O with
  | None => []
  | Some (i, c, O) =>
      lit "'utf-8' codec can't encode character '\u" ++ hex4 c
      ++ lit "' in position " ++ decimal i
      ++ lit ": surrogates not allowed"
  | Some (i, _, S more) =>
      lit "'utf-8' codec can't encode characters in position " ++ decimal i
      ++ lit "-" ++ decimal (i + S more)
      ++ lit ": surrogates not allowed"
  end.

(** The text [print] writes for a value, when it writes the value's own
    text: a [str] as it is and another object through its [str()].  A
    list, a dict or a number is written through [repr], which escapes
    what cannot be encoded. *)
Definition print_text (v : pyval) : option str :=
  match v with
  | VJson (JStr s) => Some s
  | VObj text => Some text
  | VJson _ => None
  end.

(** The error of [print(v)], if it raises. *)
Definition unprintable (v : pyval) : option str :=
  match print_text v with
  | Some s => if has_surrogate s then Some (encode_error_text s) else None
  | None => None
  end.

(** The error of [print(...)] on several values: that of the first value
    it cannot write. *)
Fixpoint print_error (args : list pyval) : option str :=
  match args with
  | [] => None
  | v :: rest =>
      match unprintable v with
      | Some msg => Some msg
      | None => print_error rest
      end
  end.

(** What a call that may raise gives: nothing, or the exception. *)
Definition raised (error : option str) : result unit :=
  match error with
  | Some msg => Raise (Exception msg)
  | None => Ok tt
  end.

(** The library operations the two files call on values. *)
Record PyLib : Type := {
  (** [s.lower()] *)
  str_lower : str -> str;
  (** [json.loads(s)] for a string [s] *)
  json_loads_str : str -> outcome json;
  (** [json.dumps(j)] for a JSON-shaped value *)
  json_dumps_json : json -> str;
  (** [json.dumps(j, indent=2, ensure_ascii=False)] *)
  json_dumps_indent2 : json -> str;
}.

(** [json.loads(v)]: a [TypeError] unless [v] is a string. *)
Definition json_loads (lib : PyLib) (v : pyval) : result json :=
  match v with
  | VJson (JStr s) => of_outcome (json_loads_str lib s)
  | _ => Raise (Exception
           (lit "the JSON object must be str, bytes or bytearray"))
  end.

(** [json.dumps(v)]: a [TypeError] on an object that is not JSON-shaped. *)
Definition json_dumps (lib : PyLib) (v : pyval) : result str :=
  match v with
  | VJson j => Ok (json_dumps_json lib j)
  | VObj _ => Raise (Exception (lit "Object is not JSON serializable"))
  end.

End Py.
Import Py.

(** ** Runs: events, services and the monad of the two scripts *)

Module Run.

(** The client object [llm] as [app.py] builds it. *)
Record LLM : Type := {
  provider : str;
  model : str;
  api_key : str;
  temperature : Q;
  max_tokens : N;
}.

Inductive event : Type :=
(* console *)
| EInput (prompt : str)
| EPrint (args : list pyval)
(* web page *)
| EStSetPageConfig (page_title page_icon layout : str)
| EStMarkdown (body : str)
| EStTextArea (label placeholder : str) (height : N)
| EStButton (label : str)
| EStWarning (body : str)
| EStSpinnerEnter (text : str)
| EStSpinnerExit
| EStSubheader (body : str)
| EStJson (j : json)
| EStCode (v : pyval)
| EStText (v : pyval)
| EStError (body : str)
| EStInfo (body : str)
(* services *)
| ELlmCall (client : LLM) (prompt : str) (kwargs : list (str * pyval))
| EHttpPost (url : str) (payload : json) (timeout : N)
| ECrewKickoff (inputs : list (str * pyval))
(* control points: the run evaluates the test [len(user_query.split()) <= 3],
   the run enters [direct_car_lookup_text] *)
| ERoute (user_query : str)
| EDirectLookup (car_name : str).

Definition is_service (e : event) : bool :=
  match e with
  | ELlmCall _ _ _ | EHttpPost _ _ _ | ECrewKickoff _ => true
  | _ => false
  end.

(** The part of a run the provider can see: the service calls so far. *)
Definition service_history (h : list event) : list event :=
  List.filter is_service h.

(** An HTTP response: whether [raise_for_status()] raises, what
    [json()] decodes, and the body as received. *)
Record Response : Type := {
  status_error : option str;
  json_body : outcome json;
  text : str;
}.

(** The services.  Each answer may depend on every service call made
    before it, so the same prompt may be answered differently twice. *)
Record World : Type := {
  (** [hasattr(llm, "call")] *)
  llm_has_call : bool;
  (** [llm.call(prompt)] *)
  llm_call : list event -> LLM -> str -> outcome pyval;
  (** [requests.post(url, json=payload, timeout=t)] *)
  requests_post : list event -> str -> json -> N -> outcome Response;
  (** [crew.kickoff(inputs=...)] *)
  crew_kickoff : list event -> list (str * pyval) -> outcome pyval;
  (** whether Streamlit raises when asked for this element, and with
      what message *)
  st_refuses : event -> option str;
}.

(** A computation reads the events so far and gives a result and the
    events it adds. *)
Definition M (A : Type) : Type := list event -> result A * list event.

Definition ret {A} (a : A) : M A := fun _ => (Ok a, []).

Definition raise {A} (e : signal) : M A := fun _ => (Raise e, []).

Definition bind {A B} (m : M A) (k : A -> M B) : M B :=
  fun h =>
    match m h with
    | (Ok a, es) => let (r, es') := k a (h ++ es) in (r, es ++ es')
    | (Raise e, es) => (Raise e, es)
    end.

Definition emit (e : event) : M unit := fun _ => (Ok tt, [e]).

Definition lift {A} (r : result A) : M A := fun _ => (r, []).

(** [try: m  except Exception as e: handler e] *)
Definition try_except {A} (m : M A) (handler : str -> M A) : M A :=
  fun h =>
    match m h with
    | (Raise (Exception msg), es) =>
        let (r, es') := handler msg (h ++ es) in (r, es ++ es')
    | other => other
    end.

(** [try: m  except: handler], which catches every signal. *)
Definition try_bare {A} (m : M A) (handler : M A) : M A :=
  fun h =>
    match m h with
    | (Raise _, es) => let (r, es') := handler (h ++ es) in (r, es ++ es')
    | other => other
    end.

(** [try: m  finally: cleanup], as a [with] block leaves its manager. *)
Definition finally {A} (m : M A) (cleanup : M unit) : M A :=
  fun h =>
    let (r, es) := m h in
    match cleanup (h ++ es) with
    | (Ok _, es') => (r, es ++ es')
    | (Raise e, es') => (Raise e, es ++ es')
    end.

Declare Scope run_scope.
Delimit Scope run_scope with run.
Notation "x <- m ;; k" := (bind m (fun x => k))
  (at level 100, m at next level, right associativity) : run_scope.
Notation "m ;; k" := (bind m (fun _ => k))
  (at level 100, right associativity) : run_scope.

(** The events of one kind in a trace. *)
Definition llm_calls (t : list event) : list event :=
  List.filter (fun e => match e with ELlmCall _ _ _ => true | _ => false end) t.
Definition http_posts (t : list event) : list event :=
  List.filter (fun e => match e with EHttpPost _ _ _ => true | _ => false end) t.
Definition crew_kickoffs (t : list event) : list event :=
  List.filter (fun e => match e with ECrewKickoff _ => true | _ => false end) t.
Definition routes (t : list event) : list event :=
  List.filter (fun e => match e with ERoute _ => true | _ => false end) t.
Definition direct_lookups (t : list event) : list event :=
  List.filter (fun e => match e with EDirectLookup _ => true | _ => false end) t.

(** The request policy of a run: where it routed, what it looked up and
    which services it called, without what it displayed. *)
Definition policy_events (t : list event) : list event :=
  List.filter
    (fun e => match e with
              | ERoute _ | EDirectLookup _ => true
              | _ => is_service e
              end) t.

End Run.
Import Run.

(** ** [app.py] *)

Module App.

(** *** Start-up configuration (lines 13 to 36) *)

(** Where the credential can come from. *)
Record Host : Type := {
  (** whether [import streamlit] succeeds *)
  streamlit_installed : bool;
  (** [st.secrets], when a secrets file exists *)
  st_secrets : option (gmap str str);
  (** [os.environ] when the program starts *)
  os_environ : gmap str str;
  (** the variables of the [.env] file, empty when there is none *)
  dotenv_file : gmap str str;
}.

(** The module-level names the rest of the program reads. *)
Record Globals : Type := {
  GEMINI_API_KEY : str;
  GEMINI_MODEL : str;
  llm : LLM;
}.

Definition key_name : str := lit "GEMINI_API_KEY".

(** [import streamlit as st; st.secrets["GEMINI_API_KEY"]] *)
Definition read_secret (host : Host) : outcome str :=
  if streamlit_installed host then
    match st_secrets host with
    | Some secrets =>
        match secrets !! key_name with
        | Some v => Returned v
        | None => Failed (lit "'GEMINI_API_KEY'")
        end
    | None => Failed (lit "No secrets found.")
    end
  else Failed (lit "No module named 'streamlit'").

(** [load_dotenv()]: the file's variables are added to the environment,
    and a variable that is already set keeps its value. *)
Definition load_dotenv (host : Host) : gmap str str :=
  os_environ host ∪ dotenv_file host.

(** [load_dotenv(); os.getenv("GEMINI_API_KEY")] *)
Definition read_local (host : Host) : option str :=
  load_dotenv host !! key_name.

(** Lines 14 to 21: the value bound to [GEMINI_API_KEY], [None] for
    Python's [None]. *)
Definition resolve_api_key (host : Host) : option str :=
  match read_secret host with
  | Returned v => Some v
  | Failed _ => read_local host
  end.

Definition missing_key_message : str :=
  lit "GEMINI_API_KEY missing! Add it in Streamlit Secrets or .env".

Definition make_llm (model_name key : str) : LLM :=
  {| provider := lit "google";
     model := model_name;
     api_key := key;
     temperature := 0.2;
     max_tokens := 1024 |}.

(** Lines 13 to 36: the module either raises or binds its globals. *)
Definition module_init (host : Host) : result Globals :=
  match resolve_api_key host with
  | None => Raise (Exception missing_key_message)
  | Some key =>
      if is_empty key then Raise (Exception missing_key_message)
      else
        let model_name := lit "gemini-2.0-flash" in
        Ok {| GEMINI_API_KEY := key;
              GEMINI_MODEL := model_name;
              llm := make_llm model_name key |}
  end.

(** *** Prompts and request bodies *)

Definition direct_prompt (car_name : str) : str :=
  lit "You are an expert on Indian cars. Provide structured JSON for '"
    ++ car_name ++ lit "'." ++ nl
  ++ lit "Include: model, manufacturer, price_range_in_inr, mileage, engine_disp_or_power, "
  ++ lit "fuel_type, transmission, seating, ground_clearance_mms, boot_space_liters, safety_rating_if_known, "
  ++ lit "popular_trims, key_features, pros, cons." ++ nl
  ++ lit "Return ONLY JSON.".

Definition fallback_url (g : Globals) : str :=
  lit "https://generativelanguage.googleapis.com/v1beta/models/"
  ++ GEMINI_MODEL g ++ lit ":generateContent?key=" ++ GEMINI_API_KEY g.

Definition fallback_payload (prompt : str) : json :=
  JObj [ (lit "contents",
          JArr [ JObj [ (lit "parts",
                         JArr [ JObj [ (lit "text", JStr prompt) ] ]) ] ]);
         (lit "generationConfig",
          JObj [ (lit "maxOutputTokens", JInt 512) ]) ].

(** [data["candidates"][0]["content"]["parts"][0]["text"]] *)
Definition extract_text (data : json) : result json :=
  match getitem_key data (lit "candidates") with
  | Raise e => Raise e
  | Ok candidates =>
  match getitem_0 candidates with
  | Raise e => Raise e
  | Ok candidate =>
  match getitem_key candidate (lit "content") with
  | Raise e => Raise e
  | Ok content =>
  match getitem_key content (lit "parts") with
  | Raise e => Raise e
  | Ok parts =>
  match getitem_0 parts with
  | Raise e => Raise e
  | Ok part => getitem_key part (lit "text")
  end end end end end.

(** The console's fallback prompt (line 186). *)
Definition extraction_prompt (user_query : str) : str :=
  lit "Extract JSON requirements from this user query:" ++ nl
  ++ user_query ++ nl ++ lit "Return JSON only.".

Section Program.

Variable lib : PyLib.
Variable g : Globals.
Variable w : World.

Local Open Scope run_scope.

(** *** Calls to the services *)

(** [llm.call(prompt)]: an [AttributeError] when the client has no
    such method, else the call with the prompt as only argument. *)
Definition call_llm (prompt : str) : M pyval :=
  if llm_has_call w then
    fun h => (of_outcome (llm_call w (service_history h) (llm g) prompt),
              [ELlmCall (llm g) prompt []])
  else raise (Exception (lit "'LLM' object has no attribute 'call'")).

(** [requests.post(url, json=payload, timeout=t)] *)
Definition post (url : str) (payload : json) (timeout : N) : M Response :=
  fun h => (of_outcome (requests_post w (service_history h) url payload timeout),
            [EHttpPost url payload timeout]).

(** [resp.raise_for_status()] *)
Definition raise_for_status (resp : Response) : M unit :=
  match status_error resp with
  | Some msg => raise (Exception msg)
  | None => ret tt
  end.

(** [crew.kickoff(inputs=inputs)] *)
Definition kickoff (inputs : list (str * pyval)) : M pyval :=
  fun h => (of_outcome (crew_kickoff w (service_history h) inputs),
            [ECrewKickoff inputs]).

(** [print(...)]: the call is recorded, and raises on a value standard
    output cannot encode. *)
Definition print (args : list pyval) : M unit :=
  fun _ => (raised (print_error args), [EPrint args]).

(** *** Direct lookup (lines 109 to 151) *)

(** Lines 118 to 123: [Some v] when the block returns [v], [None]
    when control falls out of it. *)
Definition primary_attempt (prompt : str) : M (option pyval) :=
  try_except
    (if llm_has_call w then
       result <- call_llm prompt ;;
       match result with
       | VJson (JStr _) => ret (Some result)
       | _ => dumped <- lift (json_dumps lib result) ;;
              ret (Some (VStr dumped))
       end
     else ret None)
    (fun _ => ret None).

(** Lines 126 to 151.  The module [requests] is taken to be installed,
    as the header of the file asks. *)
Definition http_fallback (prompt : str) : M pyval :=
  try_except
    (let url := fallback_url g in
     let payload := fallback_payload prompt in
     resp <- post url payload 30 ;;
     raise_for_status resp ;;
     data <- lift (of_outcome (json_body resp)) ;;
     try_bare
       (extracted <- lift (extract_text data) ;; ret (VJson extracted))
       (ret (VStr (json_dumps_json lib data))))
    (fun e => ret (VStr (lit "Error calling Gemini: " ++ e))).

Definition direct_car_lookup_text (car_name : str) : M pyval :=
  emit (EDirectLookup car_name) ;;
  let prompt := direct_prompt car_name in
  returned <- primary_attempt prompt ;;
  match returned with
  | Some v => ret v
  | None => http_fallback prompt
  end.

(** *** Main loop (lines 156 to 190) *)

(** Lines 169 to 173: the looked-up value on the console. *)
Definition show_lookup (raw : pyval) : M unit :=
  print [VStr (nl ++ lit "--- Car Details (raw) ---")] ;;
  try_bare
    (parsed <- lift (json_loads lib raw) ;;
     print [VStr (json_dumps_indent2 lib parsed)])
    (print [raw]).

(** Lines 182 to 190: the handler of [except Exception as e]. *)
Definition crew_fallback (user_query e : str) : M unit :=
  print [VStr (lit "Crew run error:"); VObj e] ;;
  print [VStr (nl ++ lit "FALLBACK: Extracting requirements using LLM directly...")] ;;
  try_except
    (let prompt := lit "Extract JSON requirements from this user query:" ++ nl
                   ++ user_query ++ nl ++ lit "Return JSON only." in
     req <- call_llm prompt ;;
     print [VStr (lit "Requirements:"); req])
    (fun e2 => print [VStr (lit "Fallback error:"); VObj e2]).

(** Lines 166 to 190: what one iteration does with a query that is
    neither empty nor a command. *)
Definition handle_query (user_query : str) : M unit :=
  emit (ERoute user_query) ;;
  if (List.length (split user_query) <=? 3)%nat then
    raw <- direct_car_lookup_text user_query ;;
    show_lookup raw
  else
    try_except
      (result <- kickoff [(lit "query", VStr user_query)] ;;
       print [VStr (nl ++ lit "Agent Output:" ++ nl)] ;;
       print [result])
      (crew_fallback user_query).

(** [user_query.lower() in ("exit", "quit")] *)
Definition is_exit_command (user_query : str) : bool :=
  let lowered := str_lower lib user_query in
  bool_decide (lowered = lit "exit") || bool_decide (lowered = lit "quit").

Inductive loop_ctl : Type := LoopAgain | LoopBreak.

(** The body of [while True], given the line [input()] returned. *)
Definition iteration (line : str) : M loop_ctl :=
  let user_query := strip line in
  if is_empty user_query then ret LoopAgain
  else if is_exit_command user_query then
    print [VStr (lit "Goodbye!")] ;; ret LoopBreak
  else handle_query user_query ;; ret LoopAgain.

Definition input_prompt : str := nl ++ lit "User: ".

(** The loop over the lines standard input still holds; [input()]
    raises [EOFError] when there is none left. *)
Fixpoint main_loop (stdin : list str) : M unit :=
  match stdin with
  | [] => emit (EInput input_prompt) ;;
          raise (Exception (lit "EOF when reading a line"))
  | line :: rest =>
      emit (EInput input_prompt) ;;
      ctl <- iteration line ;;
      match ctl with
      | LoopAgain => main_loop rest
      | LoopBreak => ret tt
      end
  end.

Definition banner : str :=
  [0x1F697] ++ lit " CrewAI Car Assistant (Gemini 2.0 Flash). Type 'exit' to quit.".

Definition main (stdin : list str) : M unit :=
  print [VStr banner] ;; main_loop stdin.

End Program.

End App.

(** ** [ui.py] *)

Module Ui.

Section Script.

Variable lib : PyLib.
Variable g : App.Globals.
Variable w : World.

Local Open Scope run_scope.

(** An element that carries a value of the run: the call is recorded,
    and raises when Streamlit refuses the element. *)
Definition show (element : event) : M unit :=
  fun _ => (raised (st_refuses w element), [element]).

(** The elements below carry literals of the script. *)
Definition st_warning (body : str) : M unit := emit (EStWarning body).
Definition st_subheader (body : str) : M unit := emit (EStSubheader body).
Definition st_info (body : str) : M unit := emit (EStInfo body).

Definition st_json (j : json) : M unit := show (EStJson j).
Definition st_code (v : pyval) : M unit := show (EStCode v).
Definition st_text (v : pyval) : M unit := show (EStText v).
Definition st_error (body : str) : M unit := show (EStError body).

(** [st.stop()] ends the run of the script. *)
Definition st_stop {A} : M A := raise StopException.

(** [with st.spinner(text): body] *)
Definition with_spinner {A} (text : str) (body : M A) : M A :=
  emit (EStSpinnerEnter text) ;;
  finally body (emit EStSpinnerExit).

(** Lines 36 to 41: the looked-up value on the page. *)
Definition show_lookup (result : pyval) : M unit :=
  st_subheader ([0x1F4DD] ++ lit " Car Details (Direct Lookup)") ;;
  try_bare
    (parsed <- lift (json_loads lib result) ;; st_json parsed)
    (st_code result).

(** Lines 57 to 66: the handler of [except Exception as e]. *)
Definition crew_fallback (user_query e : str) : M unit :=
  st_error ([0x274C] ++ lit " Error: " ++ e) ;;
  st_info (lit "Running fallback...") ;;
  try_except
    (let prompt := lit "Extract JSON requirements from this user query:" ++ nl
                   ++ user_query ++ nl ++ lit "Return JSON only." in
     req <- App.call_llm g w prompt ;;
     st_code req)
    (fun e2 => st_error (lit "Fallback failed: " ++ e2)).

(** Lines 25 to 66: the block under [if run_button:]. *)
Definition processing (user_query : str) : M unit :=
  (if is_empty (strip user_query)
   then st_warning (lit "Please enter some text!") ;; st_stop
   else ret tt) ;;
  with_spinner (lit "Processing your query... " ++ [0x23F3])
    (emit (ERoute user_query) ;;
     (if (List.length (split user_query) <=? 3)%nat then
        result <- App.direct_car_lookup_text lib g w user_query ;;
        show_lookup result ;;
        st_stop
      else ret tt) ;;
     try_except
       (result <- App.kickoff w [(lit "query", VStr user_query)] ;;
        st_subheader ([0x1F916] ++ lit " CrewAI Output") ;;
        try_bare
          (parsed <- lift (json_loads lib result) ;; st_json parsed)
          (st_text result))
       (crew_fallback user_query)).

Definition page_header : str :=
  nl ++ lit "# " ++ [0x1F697]
  ++ lit " Car Recommendation AI (CrewAI + Gemini 2.0 Flash)" ++ nl
  ++ lit "Enter your requirements, and the AI will suggest the best car for you."
  ++ nl.

(** One run of the script, given what the text area holds and
    whether the button was pressed. *)
Definition script (user_query : str) (run_button : bool) : M unit :=
  emit (EStSetPageConfig (lit "Car Recommendation AI") [0x1F697] (lit "centered")) ;;
  emit (EStMarkdown page_header) ;;
  emit (EStTextArea (lit "Enter your car requirement / model name:")
          (lit "Example: I want a petrol automatic SUV under 12 lakh for family...")
          150) ;;
  emit (EStButton ([0x1F50D] ++ lit " Get Recommendation")) ;;
  if run_button then processing user_query else ret tt.

End Script.

End Ui.

(** ** The policy in the words of the specification *)

Module Policy.

Inductive decision : Type := DirectLookup | Chain.

(** Split on whitespace; at most three tokens is a direct lookup, more
    is the chain. *)
Definition route (query : str) : decision :=
  if (List.length (split query) <=? 3)%nat then DirectLookup else Chain.

(** What a run selected, read off its trace: the one path it entered. *)
Definition selected (t : list event) : option decision :=
  match direct_lookups t, crew_kickoffs t with
  | [_], [] => Some DirectLookup
  | [], [_] => Some Chain
  | _, _ => None
  end.

(** Modelled from the spec: the contract of the LLM client, an external
    collaborator whose class is not part of the sources.  The client
    offers [call], and a call returns text or fails. *)
Definition llm_client_contract (w : World) : Prop :=
  llm_has_call w = true
  /\ forall h client prompt v,
       llm_call w h client prompt = Returned v -> exists s, v = VStr s.

(** The keyword argument [name] of a call to the client, if the call
    passes one. *)
Definition call_keyword (e : event) (name : str) : option pyval :=
  match e with
  | ELlmCall _ _ kwargs =>
      (fix find (l : list (str * pyval)) : option pyval :=
         match l with
         | [] => None
         | (k, v) :: rest => if decide (k = name) then Some v else find rest
         end) kwargs
  | _ => None
  end.

(** Whether an event is a call to the client with the prompt alone. *)
Definition prompt_only (e : event) : bool :=
  match e with
  | ELlmCall _ _ [] => true
  | _ => false
  end.

(** A world whose page never refuses an element. *)
Definition page_accepts_all (w : World) : Prop :=
  forall element, st_refuses w element = None.

(** Whether the console can write what a service answered. *)
Definition printable_outcome (o : outcome pyval) : Prop :=
  match o with
  | Returned v => unprintable v = None
  | Failed msg => has_surrogate msg = false
  end.

(** [generationConfig.maxOutputTokens] of a request to the raw endpoint. *)
Definition post_output_limit (e : event) : option Z :=
  match e with
  | EHttpPost _ (JObj fields) _ =>
      match dict_get fields (lit "generationConfig") with
      | Some (JObj config) =>
          match dict_get config (lit "maxOutputTokens") with
          | Some (JInt z) => Some z
          | _ => None
          end
      | _ => None
      end
  | _ => None
  end.

(** The outcome of the raw fallback request as the code reads it: the
    decoded body, unless the request, the status or the decoding fails. *)
Definition decoded_response (o : outcome Response) : outcome json :=
  match o with
  | Failed msg => Failed msg
  | Returned resp =>
      match status_error resp with
      | Some msg => Failed msg
      | None => json_body resp
      end
  end.

(** What lines 118 to 123 return for an answer of the client: text as
    it is, another JSON-shaped value serialised, and nothing when the
    call fails or its value cannot be serialised. *)
Definition primary_value (lib : PyLib) (o : outcome pyval) : option pyval :=
  match o with
  | Returned (VJson (JStr s)) => Some (VStr s)
  | Returned (VJson j) => Some (VStr (json_dumps_json lib j))
  | Returned (VObj _) => None
  | Failed _ => None
  end.

(** What lines 126 to 151 return for a decoded response. *)
Definition fallback_value (lib : PyLib) (o : outcome json) : pyval :=
  match o with
  | Failed msg => VStr (lit "Error calling Gemini: " ++ msg)
  | Returned data =>
      match App.extract_text data with
      | Ok extracted => VJson extracted
      | Raise _ => VStr (json_dumps_json lib data)
      end
  end.

(** *** The display blocks and the handlers, case by case

    Each of the four functions below gives the result and the events of
    one block of the scripts as a function of what the collaborators
    answer; the lemmas on the runs show that the block does just
    that. *)

Definition console_heading : event :=
  EPrint [VStr (nl ++ lit "--- Car Details (raw) ---")].

(** Lines 169 to 173 of [app.py]. *)
Definition console_shown (lib : PyLib) (raw : pyval)
  : result unit * list event :=
  match json_loads lib raw with
  | Ok parsed =>
      let pretty := VStr (json_dumps_indent2 lib parsed) in
      match unprintable pretty with
      | None => (Ok tt, [console_heading; EPrint [pretty]])
      | Some _ =>
          (raised (unprintable raw),
           [console_heading; EPrint [pretty]; EPrint [raw]])
      end
  | Raise _ => (raised (unprintable raw), [console_heading; EPrint [raw]])
  end.

Definition page_heading : event :=
  EStSubheader ([0x1F4DD] ++ lit " Car Details (Direct Lookup)").

(** Lines 36 to 41 of [ui.py]. *)
Definition page_shown (lib : PyLib) (w : World) (value : pyval)
  : result unit * list event :=
  match json_loads lib value with
  | Ok parsed =>
      match st_refuses w (EStJson parsed) with
      | None => (Ok tt, [page_heading; EStJson parsed])
      | Some _ =>
          (raised (st_refuses w (EStCode value)),
           [page_heading; EStJson parsed; EStCode value])
      end
  | Raise _ =>
      (raised (st_refuses w (EStCode value)), [page_heading; EStCode value])
  end.

(** Lines 48 to 54 of [ui.py]: what the page shows of a result of the
    crew, and the error that sends the run to the handler, if any. *)
Definition page_crew_shown (lib : PyLib) (w : World) (value : pyval)
  : option str * list event :=
  let heading := EStSubheader ([0x1F916] ++ lit " CrewAI Output") in
  match json_loads lib value with
  | Ok parsed =>
      match st_refuses w (EStJson parsed) with
      | None => (None, [heading; EStJson parsed])
      | Some _ =>
          (st_refuses w (EStText value),
           [heading; EStJson parsed; EStText value])
      end
  | Raise _ => (st_refuses w (EStText value), [heading; EStText value])
  end.

Definition crew_error_line (e : str) : event :=
  EPrint [VStr (lit "Crew run error:"); VObj e].

Definition fallback_notice : event :=
  EPrint [VStr (nl ++ lit "FALLBACK: Extracting requirements using LLM directly...")].

Definition fallback_error_line (e2 : str) : event :=
  EPrint [VStr (lit "Fallback error:"); VObj e2].

Definition no_call_message : str := lit "'LLM' object has no attribute 'call'".

(** Lines 182 to 190 of [app.py], given the service calls made so far. *)
Definition console_fallback (g : App.Globals) (w : World) (q e : str)
    (calls : list event) : result unit * list event :=
  let call := ELlmCall (App.llm g) (App.extraction_prompt q) [] in
  match unprintable (VObj e) with
  | Some msg => (Raise (Exception msg), [crew_error_line e])
  | None =>
      if llm_has_call w then
        match llm_call w calls (App.llm g) (App.extraction_prompt q) with
        | Returned req =>
            let line := EPrint [VStr (lit "Requirements:"); req] in
            match unprintable req with
            | None =>
                (Ok tt, [crew_error_line e; fallback_notice; call; line])
            | Some msg =>
                (Ok tt, [crew_error_line e; fallback_notice; call; line;
                         fallback_error_line msg])
            end
        | Failed e2 =>
            (raised (unprintable (VObj e2)),
             [crew_error_line e; fallback_notice; call; fallback_error_line e2])
        end
      else
        (Ok tt, [crew_error_line e; fallback_notice;
                 fallback_error_line no_call_message])
  end.

Definition page_error (e : str) : event :=
  EStError ([0x274C] ++ lit " Error: " ++ e).

Definition page_fallback_error (e2 : str) : event :=
  EStError (lit "Fallback failed: " ++ e2).

(** Lines 57 to 66 of [ui.py], given the service calls made so far. *)
Definition page_fallback (g : App.Globals) (w : World) (q e : str)
    (calls : list event) : result unit * list event :=
  let call := ELlmCall (App.llm g) (App.extraction_prompt q) [] in
  let info := EStInfo (lit "Running fallback...") in
  match st_refuses w (page_error e) with
  | Some msg => (Raise (Exception msg), [page_error e])
  | None =>
      if llm_has_call w then
        match llm_call w calls (App.llm g) (App.extraction_prompt q) with
        | Returned req =>
            match st_refuses w (EStCode req) with
            | None => (Ok tt, [page_error e; info; call; EStCode req])
            | Some msg =>
                (raised (st_refuses w (page_fallback_error msg)),
                 [page_error e; info; call; EStCode req;
                  page_fallback_error msg])
            end
        | Failed e2 =>
            (raised (st_refuses w (page_fallback_error e2)),
             [page_error e; info; call; page_fallback_error e2])
        end
      else
        (raised (st_refuses w (page_fallback_error no_call_message)),
         [page_error e; info; page_fallback_error no_call_message])
  end.


End Policy.
Import Policy.

(** ** Concrete collaborators, for running the model *)

Module Examples.

Definition ascii_lower (s : str) : str :=
  List.map (fun c => if (0x41 <=? c) && (c <=? 0x5A) then c + 0x20 else c) s.

(** A library that decodes the JSON literals [null], [true] and [false]
    and rejects every other text. *)
Definition lib0 : PyLib :=
  {| str_lower := ascii_lower;
     json_loads_str := fun s =>
       if bool_decide (s = lit "null") then Returned JNull
       else if bool_decide (s = lit "true") then Returned (JBool true)
       else if bool_decide (s = lit "false") then Returned (JBool false)
       else Failed (lit "Expecting value: line 1 column 1 (char 0)");
     json_dumps_json := fun j =>
       match j with
       | JBool true => lit "true"
       | JBool false => lit "false"
       | _ => lit "null"
       end;
     json_dumps_indent2 := fun j =>
       match j with
       | JBool true => lit "true"
       | JBool false => lit "false"
       | _ => lit "null"
       end |}.

Definition local_host : App.Host :=
  {| App.streamlit_installed := false;
     App.st_secrets := None;
     App.os_environ := {[ App.key_name := lit "k-123" ]};
     App.dotenv_file := ∅ |}.

Definition bare_host : App.Host :=
  {| App.streamlit_installed := true;
     App.st_secrets := Some ∅;
     App.os_environ := ∅;
     App.dotenv_file := ∅ |}.

Definition g0 : App.Globals :=
  {| App.GEMINI_API_KEY := lit "k-123";
     App.GEMINI_MODEL := lit "gemini-2.0-flash";
     App.llm := App.make_llm (lit "gemini-2.0-flash") (lit "k-123") |}.

(** Every service answers. *)
Definition w_up : World :=
  {| llm_has_call := true;
     llm_call := fun _ _ _ => Returned (VStr (lit "true"));
     requests_post := fun _ _ _ _ =>
       Returned {| status_error := None;
                   json_body := Returned JNull;
                   text := lit "null" |};
     crew_kickoff := fun _ _ => Returned (VObj (lit "Maruti Swift"));
     st_refuses := fun _ => None |}.

(** The client and the crew fail; the raw endpoint answers with a body
    that is not JSON. *)
Definition w_html : World :=
  {| llm_has_call := true;
     llm_call := fun _ _ _ => Failed (lit "503");
     requests_post := fun _ _ _ _ =>
       Returned {| status_error := None;
                   json_body := Failed (lit "Expecting value");
                   text := lit "<html>" |};
     crew_kickoff := fun _ _ => Failed (lit "503");
     st_refuses := fun _ => None |}.

(** The client fails; the raw endpoint answers with a JSON body [body]. *)
Definition w_body (body : json) : World :=
  {| llm_has_call := true;
     llm_call := fun _ _ _ => Failed (lit "503");
     requests_post := fun _ _ _ _ =>
       Returned {| status_error := None;
                   json_body := Returned body;
                   text := [] |};
     crew_kickoff := fun _ _ => Failed (lit "503");
     st_refuses := fun _ => None |}.

(** Nothing answers. *)
Definition w_down : World :=
  {| llm_has_call := true;
     llm_call := fun _ _ _ => Failed (lit "503");
     requests_post := fun _ _ _ _ => Failed (lit "timed out");
     crew_kickoff := fun _ _ => Failed (lit "503");
     st_refuses := fun _ => None |}.

Definition gemini_body (answer : json) : json :=
  JObj [ (lit "candidates",
          JArr [ JObj [ (lit "content",
                         JObj [ (lit "parts",
                                 JArr [ JObj [ (lit "text", answer) ] ]) ]) ] ]) ].

End Examples.

(** ** The console session and the page as a whole *)

Module Session.

(** Whether the loop takes [line] for a command (lines 159 to 164): the
    stripped line is not empty and, lowered, is [exit] or [quit]. *)
Definition exits (lib : PyLib) (line : str) : bool :=
  negb (is_empty (strip line)) && App.is_exit_command lib (strip line).


(** The test of line 167 of [app.py] and line 33 of [ui.py]. *)
Definition is_short (user_query : str) : bool :=
  (List.length (split user_query) <=? 3)%nat.

Definition spinner_events (t : list event) : list event :=
  List.filter
    (fun e => match e with
              | EStSpinnerEnter _ | EStSpinnerExit => true
              | _ => false
              end) t.

(** What the page renders before it looks at the button (lines 7 to 22). *)
Definition page_widgets : list event :=
  [ EStSetPageConfig (lit "Car Recommendation AI") [0x1F697] (lit "centered");
    EStMarkdown Ui.page_header;
    EStTextArea (lit "Enter your car requirement / model name:")
      (lit "Example: I want a petrol automatic SUV under 12 lakh for family...")
      150;
    EStButton ([0x1F50D] ++ lit " Get Recommendation") ].

End Session.
Import Session.

(** ** More collaborators, for the edges of the code *)

Module Cases.

(** A client object without the method [call]; the raw endpoint answers. *)
Definition w_no_method : World :=
  {| llm_has_call := false;
     llm_call := fun _ _ _ => Failed (lit "unreachable");
     requests_post := fun _ _ _ _ =>
       Returned {| status_error := None;
                   json_body := Returned (Examples.gemini_body (JStr (lit "ok")));
                   text := [] |};
     crew_kickoff := fun _ _ => Failed (lit "503");
     st_refuses := fun _ => None |}.

(** The client returns a value that is not text: [answer]. *)
Definition w_answers (answer : pyval) : World :=
  {| llm_has_call := true;
     llm_call := fun _ _ _ => Returned answer;
     requests_post := fun _ _ _ _ => Failed (lit "timed out");
     crew_kickoff := fun _ _ => Returned answer;
     st_refuses := fun _ => None |}.

(** The environment sets the variable to the empty string and the [.env]
    file holds a key. *)
Definition shadowed_host : App.Host :=
  {| App.streamlit_installed := false;
     App.st_secrets := None;
     App.os_environ := {[ App.key_name := [] ]};
     App.dotenv_file := {[ App.key_name := lit "k-123" ]} |}.

(** The secrets file holds an empty key and the environment a real one. *)
Definition empty_secret_host : App.Host :=
  {| App.streamlit_installed := true;
     App.st_secrets := Some {[ App.key_name := [] ]};
     App.os_environ := {[ App.key_name := lit "k-123" ]};
     App.dotenv_file := ∅ |}.

(** The crew fails with a message that holds a lone surrogate. *)
Definition w_crew_surrogate : World :=
  {| llm_has_call := true;
     llm_call := fun _ _ _ => Returned (VStr (lit "true"));
     requests_post := fun _ _ _ _ => Failed (lit "timed out");
     crew_kickoff := fun _ _ => Failed (lit "bad " ++ [0xD83D]);
     st_refuses := fun _ => None |}.

(** The JSON text of the one-character string U+D83D: a quote, the
    escape and a quote. *)
Definition surrogate_json : str := [0x22] ++ lit "\ud83d" ++ [0x22].


(** The client answers every prompt with that text. *)
Definition w_surrogate_answer : World :=
  {| llm_has_call := true;
     llm_call := fun _ _ _ => Returned (VStr surrogate_json);
     requests_post := fun _ _ _ _ => Failed (lit "timed out");
     crew_kickoff := fun _ _ => Returned (VObj (lit "x" ++ [0xD83D]));
     st_refuses := fun _ => None |}.

(** The secrets file holds a key and so does the environment. *)
Definition cloud_host : App.Host :=
  {| App.streamlit_installed := true;
     App.st_secrets := Some {[ App.key_name := lit "s-999" ]};
     App.os_environ := {[ App.key_name := lit "k-123" ]};
     App.dotenv_file := ∅ |}.

End Cases.

(** The same over the goal and the hypotheses, so that what is known of a
    part of the trace applies to the whole. *)
Ltac count_all :=
  unfold routes, direct_lookups, crew_kickoffs, llm_calls, http_posts,
    policy_events, spinner_events in *;
  cbn [List.filter is_service app fst snd] in *;
  rewrite ?List.filter_app in *;
  cbn [List.filter is_service app] in *.

(** Counting the events of one kind in a trace that is known. *)
Ltac count_events :=
  unfold routes, direct_lookups, crew_kickoffs, llm_calls, http_posts,
    policy_events;
  cbn [List.filter is_service]; rewrite ?List.filter_app;
  cbn [List.filter is_service app].

(** ** Running the model on small inputs *)

Example split_honda_city :
  split (lit "  Honda   City ") = [lit "Honda"; lit "City"].
Proof. reflexivity. Qed.

Example strip_honda_city : strip (lit "  Honda City  ") = lit "Honda City".
Proof. reflexivity. Qed.

Example route_honda_city : route (lit "Honda City") = DirectLookup.
Proof. reflexivity. Qed.

Example route_long :
  route (lit "I want a petrol SUV under 12 lakh") = Chain.
Proof. reflexivity. Qed.

Example init_local :
  App.module_init Examples.local_host = Ok Examples.g0.
Proof. vm_compute. reflexivity. Qed.

Example init_bare :
  App.module_init Examples.bare_host = Raise (Exception App.missing_key_message).
Proof. vm_compute. reflexivity. Qed.

Example lookup_swift_down :
  App.direct_car_lookup_text Examples.lib0 Examples.g0 Examples.w_down (lit "Swift") []
  = (Ok (VStr (lit "Error calling Gemini: timed out")),
     [ EDirectLookup (lit "Swift");
       ELlmCall (App.llm Examples.g0) (App.direct_prompt (lit "Swift")) [];
       EHttpPost (App.fallback_url Examples.g0)
         (App.fallback_payload (App.direct_prompt (lit "Swift"))) 30 ]).
Proof. vm_compute. reflexivity. Qed.

Example lookup_swift_extracts :
  fst (App.direct_car_lookup_text Examples.lib0 Examples.g0
         (Examples.w_body (Examples.gemini_body (JStr (lit "{}")))) (lit "Swift") [])
  = Ok (VStr (lit "{}")).
Proof. vm_compute. reflexivity. Qed.

Example web_empty :
  Ui.processing Examples.lib0 Examples.g0 Examples.w_up (lit "   ") []
  = (Raise StopException, [EStWarning (lit "Please enter some text!")]).
Proof. vm_compute. reflexivity. Qed.

Example web_swift :
  Ui.processing Examples.lib0 Examples.g0 Examples.w_up (lit "Swift") []
  = (Raise StopException,
     [ EStSpinnerEnter (lit "Processing your query... " ++ [0x23F3]);
       ERoute (lit "Swift");
       EDirectLookup (lit "Swift");
       ELlmCall (App.llm Examples.g0) (App.direct_prompt (lit "Swift")) [];
       EStSubheader ([0x1F4DD] ++ lit " Car Details (Direct Lookup)");
       EStJson (JBool true);
       EStSpinnerExit ]).
Proof. vm_compute. reflexivity. Qed.

Example console_session :
  App.main Examples.lib0 Examples.g0 Examples.w_down
    [lit ""; lit "a diesel sedan under 10 lakh"; lit " QUIT "] []
  = (Ok tt,
     [ EPrint [VStr App.banner];
       EInput App.input_prompt;
       EInput App.input_prompt;
       ERoute (lit "a diesel sedan under 10 lakh");
       ECrewKickoff [(lit "query", VStr (lit "a diesel sedan under 10 lakh"))];
       EPrint [VStr (lit "Crew run error:"); VObj (lit "503")];
       EPrint [VStr (nl ++ lit "FALLBACK: Extracting requirements using LLM directly...")];
       ELlmCall (App.llm Examples.g0)
         (App.extraction_prompt (lit "a diesel sedan under 10 lakh")) [];
       EPrint [VStr (lit "Fallback error:"); VObj (lit "503")];
       EInput App.input_prompt;
       EPrint [VStr (lit "Goodbye!")] ]).
Proof. vm_compute. reflexivity. Qed.

(** ** Whitespace, [strip] and [split] *)

Section Strings.

Implicit Types (s t : str) (c : N).

Lemma lstrip_spaces s : forallb isspace s = true -> lstrip s = [].
Proof.
  induction s as [|c s IH]; simpl; [reflexivity|].
  intros H. apply andb_prop in H as [Hc Hs]. rewrite Hc. auto.
Qed.

Lemma lstrip_nil_spaces s : lstrip s = [] -> forallb isspace s = true.
Proof.
  induction s as [|c s IH]; simpl; [reflexivity|].
  destruct (isspace c); [auto | discriminate].
Qed.

(** A string is some whitespace followed by what [lstrip] keeps. *)
Lemma lstrip_decompose s :
  exists ws, s = ws ++ lstrip s /\ forallb isspace ws = true.
Proof.
  induction s as [|c s [ws [Heq Hws]]]; simpl.
  - exists []. split; reflexivity.
  - destruct (isspace c) eqn:Hc.
    + exists (c :: ws). simpl. rewrite Hc, Hws. split; [congruence | reflexivity].
    + exists []. split; reflexivity.
Qed.

Lemma lstrip_head c s : isspace c = false -> lstrip (c :: s) = c :: s.
Proof. intros H. simpl. rewrite H. reflexivity. Qed.

Lemma lstrip_snoc s c :
  isspace c = false -> lstrip (s ++ [c]) = lstrip s ++ [c].
Proof.
  intros Hc. induction s as [|a s IH]; simpl.
  - rewrite Hc. reflexivity.
  - destruct (isspace a); [exact IH | reflexivity].
Qed.

Lemma forallb_isspace_rev s :
  forallb isspace (rev s) = forallb isspace s.
Proof.
  induction s as [|c s IH]; simpl; [reflexivity|].
  rewrite forallb_app, IH. simpl. rewrite andb_true_r. apply andb_comm.
Qed.

(** A string is what [rstrip] keeps followed by some whitespace. *)
Lemma rstrip_decompose s :
  exists ws, s = rstrip s ++ ws /\ forallb isspace ws = true.
Proof.
  destruct (lstrip_decompose (rev s)) as [ws [Heq Hws]].
  exists (rev ws). split.
  - unfold rstrip. rewrite <- rev_app_distr, <- Heq, rev_involutive. reflexivity.
  - rewrite forallb_isspace_rev. exact Hws.
Qed.

Lemma rstrip_nil_iff s : rstrip s = [] <-> forallb isspace s = true.
Proof.
  unfold rstrip. split.
  - intros H. apply (f_equal (@rev N)) in H. rewrite rev_involutive in H.
    simpl in H. apply lstrip_nil_spaces in H.
    rewrite forallb_isspace_rev in H. exact H.
  - intros H. rewrite lstrip_spaces; [reflexivity|].
    rewrite forallb_isspace_rev. exact H.
Qed.

(** What [lstrip] keeps is empty or starts with a code point that is
    not whitespace. *)
Lemma lstrip_shape s :
  lstrip s = [] \/ exists c t, lstrip s = c :: t /\ isspace c = false.
Proof.
  induction s as [|c s IH]; simpl; [left; reflexivity|].
  destruct (isspace c) eqn:Hc; [exact IH|].
  right. exists c, s. split; [reflexivity | exact Hc].
Qed.

(** Empty or whitespace-only text is exactly the text [strip] empties. *)
Lemma strip_nil_iff s : strip s = [] <-> forallb isspace s = true.
Proof.
  unfold strip. rewrite rstrip_nil_iff. split.
  - intros H. destruct (lstrip_shape s) as [E | [c [t [E Hc]]]].
    + apply lstrip_nil_spaces. exact E.
    + rewrite E in H. simpl in H. rewrite Hc in H. discriminate.
  - intros H. rewrite lstrip_spaces; [reflexivity | exact H].
Qed.

Lemma rstrip_head c s :
  isspace c = false -> exists t, rstrip (c :: s) = c :: t.
Proof.
  intros Hc. unfold rstrip. simpl. rewrite lstrip_snoc by exact Hc.
  rewrite rev_app_distr. simpl. eauto.
Qed.

Lemma rstrip_idempotent s : rstrip (rstrip s) = rstrip s.
Proof.
  unfold rstrip. rewrite rev_involutive. f_equal.
  destruct (lstrip_shape (rev s)) as [E | [c [t [E Hc]]]]; rewrite E.
  - reflexivity.
  - apply lstrip_head. exact Hc.
Qed.

Lemma strip_idempotent s : strip (strip s) = strip s.
Proof.
  unfold strip.
  destruct (lstrip_shape s) as [E | [c [t [E Hc]]]]; rewrite E.
  - reflexivity.
  - destruct (rstrip_head c t Hc) as [t' Ht]. rewrite Ht.
    rewrite lstrip_head by exact Hc. rewrite <- Ht.
    apply rstrip_idempotent.
Qed.

Lemma split_from_spaces tok ws :
  forallb isspace ws = true -> split_from tok ws = split_from tok [].
Proof.
  revert tok. induction ws as [|c ws IH]; intros tok H; [reflexivity|].
  simpl in H. apply andb_prop in H as [Hc Hws].
  simpl. rewrite Hc. destruct tok; rewrite (IH [] Hws); reflexivity.
Qed.

Lemma split_from_trailing tok s ws :
  forallb isspace ws = true -> split_from tok (s ++ ws) = split_from tok s.
Proof.
  intros Hws. revert tok. induction s as [|c s IH]; intros tok.
  - apply split_from_spaces. exact Hws.
  - simpl. destruct (isspace c); [destruct tok|]; rewrite IH; reflexivity.
Qed.

Lemma split_leading ws s :
  forallb isspace ws = true -> split (ws ++ s) = split s.
Proof.
  unfold split. induction ws as [|c ws IH]; intros H; [reflexivity|].
  simpl in H. apply andb_prop in H as [Hc Hws].
  simpl. rewrite Hc. auto.
Qed.

(** [strip] removes no token: the console, which strips the line it
    reads, and the web form, which does not, count the same tokens. *)
Lemma split_strip s : split (strip s) = split s.
Proof.
  unfold strip.
  destruct (lstrip_decompose s) as [ws [Hs Hws]].
  destruct (rstrip_decompose (lstrip s)) as [ws' [Hl Hws']].
  rewrite Hs at 2. rewrite (split_leading _ _ Hws).
  rewrite Hl at 2. unfold split.
  rewrite (split_from_trailing _ _ _ Hws'). reflexivity.
Qed.

(** Text with no token is empty or whitespace only. *)
Lemma split_nil_iff s : split s = [] <-> forallb isspace s = true.
Proof.
  unfold split. split.
  - assert (G : forall tok, split_from tok s = [] ->
                  tok = [] /\ forallb isspace s = true).
    { induction s as [|c s IH]; intros tok; simpl.
      - destruct tok; [auto | discriminate].
      - destruct (isspace c) eqn:Hc.
        + destruct tok; [|discriminate].
          intros H. apply IH in H as [_ H]. auto.
        + intros H. apply IH in H as [H _]. discriminate. }
    intros H. apply G in H as [_ H]. exact H.
  - intros H. rewrite (split_from_spaces [] s H). reflexivity.
Qed.

End Strings.

(** ** Runs of the direct lookup *)

Section Runs.

Variable lib : PyLib.
Variable g : App.Globals.
Variable w : World.

Implicit Types (h t : list event) (q name line : str).

Lemma service_history_app h t :
  service_history (h ++ t) = service_history h ++ service_history t.
Proof. unfold service_history; rewrite List.filter_app; reflexivity. Qed.

Lemma service_history_display h e :
  is_service e = false -> service_history (h ++ [e]) = service_history h.
Proof.
  intros H. rewrite service_history_app. unfold service_history at 2.
  simpl. rewrite H. apply app_nil_r.
Qed.

Lemma service_history_call h e :
  is_service e = true -> service_history (h ++ [e]) = service_history h ++ [e].
Proof.
  intros H. rewrite service_history_app. unfold service_history at 2.
  simpl. rewrite H. reflexivity.
Qed.

(** Lines 118 to 123 make one call and return what [primary_value] says. *)
Lemma primary_attempt_run prompt h :
  llm_has_call w = true ->
  App.primary_attempt lib g w prompt h
  = (Ok (primary_value lib (llm_call w (service_history h) (App.llm g) prompt)),
     [ELlmCall (App.llm g) prompt []]).
Proof.
  intros Hcall.
  unfold App.primary_attempt, App.call_llm, try_except, bind, ret, lift.
  rewrite Hcall.
  destruct (llm_call w (service_history h) (App.llm g) prompt) as [[j|o]|msg];
    simpl; [destruct j|..]; reflexivity.
Qed.

(** Without the method, lines 118 to 123 do nothing. *)
Lemma primary_attempt_no_method prompt h :
  llm_has_call w = false ->
  App.primary_attempt lib g w prompt h = (Ok None, []).
Proof.
  intros Hcall. unfold App.primary_attempt, try_except, ret.
  rewrite Hcall. reflexivity.
Qed.

(** Lines 126 to 151 make one request and never raise. *)
Lemma http_fallback_run prompt h :
  App.http_fallback lib g w prompt h
  = (Ok (fallback_value lib
           (decoded_response
              (requests_post w (service_history h) (App.fallback_url g)
                 (App.fallback_payload prompt) 30))),
     [EHttpPost (App.fallback_url g) (App.fallback_payload prompt) 30]).
Proof.
  unfold App.http_fallback, App.post, App.raise_for_status,
    try_except, try_bare, bind, ret, lift, raise.
  destruct (requests_post w (service_history h) (App.fallback_url g)
              (App.fallback_payload prompt) 30) as [resp|msg]; simpl;
    [|reflexivity].
  destruct (status_error resp) as [msg|]; simpl; [reflexivity|].
  destruct (json_body resp) as [data|msg]; simpl; [|reflexivity].
  destruct (App.extract_text data) as [extracted|e]; reflexivity.
Qed.

(** The whole of [direct_car_lookup_text] when the client has [call]. *)
Lemma direct_lookup_run name h :
  llm_has_call w = true ->
  let prompt := App.direct_prompt name in
  let call := ELlmCall (App.llm g) prompt [] in
  let request := EHttpPost (App.fallback_url g) (App.fallback_payload prompt) 30 in
  App.direct_car_lookup_text lib g w name h
  = match primary_value lib (llm_call w (service_history h) (App.llm g) prompt) with
    | Some v => (Ok v, [EDirectLookup name; call])
    | None =>
        (Ok (fallback_value lib
               (decoded_response
                  (requests_post w (service_history h ++ [call])
                     (App.fallback_url g) (App.fallback_payload prompt) 30))),
         [EDirectLookup name; call; request])
    end.
Proof.
  intros Hcall prompt call request.
  unfold App.direct_car_lookup_text, bind, emit. fold prompt.
  cbv beta iota.
  rewrite (primary_attempt_run _ _ Hcall).
  rewrite (service_history_display h (EDirectLookup name)) by reflexivity.
  destruct (primary_value _ _) as [v|]; [reflexivity|].
  rewrite http_fallback_run.
  rewrite (service_history_call _ call) by reflexivity.
  rewrite (service_history_display h (EDirectLookup name)) by reflexivity.
  reflexivity.
Qed.

(** [direct_car_lookup_text] returns a value whatever the services do. *)
Lemma direct_lookup_returns name h :
  exists v t, App.direct_car_lookup_text lib g w name h = (Ok v, t).
Proof.
  unfold App.direct_car_lookup_text, bind, emit. cbv beta iota.
  destruct (llm_has_call w) eqn:Hcall.
  - rewrite (primary_attempt_run _ _ Hcall).
    destruct (primary_value _ _) as [v|]; [eauto|].
    rewrite http_fallback_run. eauto.
  - rewrite (primary_attempt_no_method _ _ Hcall).
    rewrite http_fallback_run. eauto.
Qed.

End Runs.

(** ** Direct lookup: calls, results and limits *)

(** X1: the six steps of [extract_text] succeed on one shape only: an object
    whose [candidates] is a non-empty array, whose first element is an
    object with an object [content], whose [parts] is a non-empty array
    with an object first, which has a [text]. *)
Lemma extract_text_shape (data x : json) :
  App.extract_text data = Ok x <->
  exists fields candidate others content_fields part more,
    data = JObj fields
    /\ dict_get fields (lit "candidates") = Some (JArr (JObj candidate :: others))
    /\ dict_get candidate (lit "content") = Some (JObj content_fields)
    /\ dict_get content_fields (lit "parts") = Some (JArr (JObj part :: more))
    /\ dict_get part (lit "text") = Some x.
Proof.
  unfold App.extract_text. split.
  - destruct data as [| | | | |?|fields]; try discriminate. cbn [getitem_key].
    destruct (dict_get fields (lit "candidates")) as [cands|] eqn:H1; [|discriminate].
    destruct cands as [| | | |[|c s]|[|cand others]|?]; try discriminate.
    cbn [getitem_0].
    destruct cand as [| | | | |?|candidate]; try discriminate. cbn [getitem_key].
    destruct (dict_get candidate (lit "content")) as [content|] eqn:H2; [|discriminate].
    destruct content as [| | | | |?|content_fields]; try discriminate.
    cbn [getitem_key].
    destruct (dict_get content_fields (lit "parts")) as [parts|] eqn:H3; [|discriminate].
    destruct parts as [| | | |[|c s]|[|p more]|?]; try discriminate.
    cbn [getitem_0].
    destruct p as [| | | | |?|part]; try discriminate. cbn [getitem_key].
    destruct (dict_get part (lit "text")) as [v|] eqn:Hv; [|discriminate].
    intros [= <-].
    exists fields, candidate, others, content_fields, part, more. auto.
  - intros (fields & candidate & others & content_fields & part & more
            & -> & H1 & H2 & H3 & H4).
    cbn [getitem_key getitem_0]. rewrite H1. cbn [getitem_key getitem_0].
    rewrite H2. cbn [getitem_key getitem_0]. rewrite H3.
    cbn [getitem_key getitem_0]. rewrite H4. reflexivity.
Qed.

(** C5: when the primary call of the direct lookup returns text, the
    function returns that very text, with no other event than the call. *)
Theorem direct_lookup_returns_text_verbatim
    (lib : PyLib) (g : App.Globals) (w : World) (h : list event) (name s : str) :
  llm_has_call w = true ->
  llm_call w (service_history h) (App.llm g) (App.direct_prompt name)
    = Returned (VStr s) ->
  App.direct_car_lookup_text lib g w name h
  = (Ok (VStr s),
     [EDirectLookup name; ELlmCall (App.llm g) (App.direct_prompt name) []]).
Proof.
  intros Hcall Hanswer.
  rewrite (direct_lookup_run lib g w name h Hcall).
  cbv zeta. rewrite Hanswer. reflexivity.
Qed.

Lemma direct_lookup_returns_text_verbatim_witness :
  llm_has_call Examples.w_up = true
  /\ llm_call Examples.w_up (service_history []) (App.llm Examples.g0)
       (App.direct_prompt (lit "Swift")) = Returned (VStr (lit "true"))
  /\ App.direct_car_lookup_text Examples.lib0 Examples.g0 Examples.w_up (lit "Swift") []
     = (Ok (VStr (lit "true")),
        [EDirectLookup (lit "Swift");
         ELlmCall (App.llm Examples.g0) (App.direct_prompt (lit "Swift")) []]).
Proof.
  split; [reflexivity|]. split; [reflexivity|].
  apply (direct_lookup_returns_text_verbatim Examples.lib0 Examples.g0
           Examples.w_up [] (lit "Swift") (lit "true")); reflexivity.
Defined.

(** C2: with a client that keeps its contract, the direct lookup makes
    exactly one primary call; it sends exactly one request to the raw
    endpoint when that call fails and none when it returns; when the
    request fails too the result is the text ["Error calling Gemini: "]
    followed by the error; and in every case a value is returned, not an
    exception. *)
Theorem direct_lookup_call_discipline
    (lib : PyLib) (g : App.Globals) (w : World) (h : list event) (name : str) :
  llm_client_contract w ->
  let prompt := App.direct_prompt name in
  let call := ELlmCall (App.llm g) prompt [] in
  let request :=
    EHttpPost (App.fallback_url g) (App.fallback_payload prompt) 30 in
  let primary := llm_call w (service_history h) (App.llm g) prompt in
  let fallback :=
    decoded_response
      (requests_post w (service_history h ++ [call]) (App.fallback_url g)
         (App.fallback_payload prompt) 30) in
  exists v t,
    App.direct_car_lookup_text lib g w name h = (Ok v, t)
    /\ llm_calls t = [call]
    /\ (forall answer, primary = Returned answer -> http_posts t = [])
    /\ (forall msg, primary = Failed msg -> http_posts t = [request])
    /\ (forall msg msg', primary = Failed msg -> fallback = Failed msg' ->
          v = VStr (lit "Error calling Gemini: " ++ msg')).
Proof.
  intros [Hcall Htext] prompt call request primary fallback.
  rewrite (direct_lookup_run lib g w name h Hcall). cbv zeta.
  fold prompt call request primary fallback.
  destruct primary as [answer|msg] eqn:Hprimary.
  - destruct (Htext _ _ _ _ Hprimary) as [s ->]. cbn [primary_value VStr].
    eexists _, _. split; [reflexivity|].
    repeat split; try reflexivity; intros; discriminate.
  - cbn [primary_value].
    eexists _, _. split; [reflexivity|].
    repeat split; try reflexivity; try (intros; discriminate).
    intros _ msg' _ Hfallback. rewrite Hfallback. reflexivity.
Qed.

Lemma direct_lookup_call_discipline_witness :
  llm_client_contract Examples.w_down
  /\ exists v t,
       App.direct_car_lookup_text Examples.lib0 Examples.g0 Examples.w_down
         (lit "Swift") [] = (Ok v, t)
       /\ llm_calls t
          = [ELlmCall (App.llm Examples.g0) (App.direct_prompt (lit "Swift")) []]
       /\ v = VStr (lit "Error calling Gemini: timed out").
Proof.
  assert (C : llm_client_contract Examples.w_down).
  { split; [reflexivity|]. intros h client prompt v H. discriminate H. }
  split; [exact C|].
  destruct (direct_lookup_call_discipline Examples.lib0 Examples.g0
              Examples.w_down [] (lit "Swift") C)
    as (v & t & Hrun & Hcalls & _ & _ & Herr).
  exists v, t. split; [exact Hrun|]. split; [exact Hcalls|].
  apply (Herr (lit "503") (lit "timed out")); reflexivity.
Defined.

(** What start-up binds: the client is built with the resolved key, the
    model name and an output limit of 1024. *)
Lemma module_init_globals (host : App.Host) (g : App.Globals) :
  App.module_init host = Ok g ->
  App.GEMINI_MODEL g = lit "gemini-2.0-flash"
  /\ App.llm g = App.make_llm (lit "gemini-2.0-flash") (App.GEMINI_API_KEY g)
  /\ App.resolve_api_key host = Some (App.GEMINI_API_KEY g)
  /\ App.GEMINI_API_KEY g <> [].
Proof.
  unfold App.module_init.
  destruct (App.resolve_api_key host) as [key|]; [|discriminate].
  destruct key as [|c key]; cbn [is_empty]; [discriminate|].
  intros [= <-]. cbn. repeat split; discriminate.
Qed.

(** The events of a direct lookup, whatever the services do: its marker,
    the primary call if the client has the method, and the raw request if
    the primary attempt gave nothing. *)
Lemma direct_lookup_trace
    (lib : PyLib) (g : App.Globals) (w : World) (h : list event) (name : str) :
  let prompt := App.direct_prompt name in
  let call := ELlmCall (App.llm g) prompt [] in
  let request :=
    EHttpPost (App.fallback_url g) (App.fallback_payload prompt) 30 in
  let t := snd (App.direct_car_lookup_text lib g w name h) in
  t = [EDirectLookup name; call]
  \/ t = [EDirectLookup name; call; request]
  \/ t = [EDirectLookup name; request].
Proof.
  intros prompt call request.
  destruct (llm_has_call w) eqn:Hcall.
  - rewrite (direct_lookup_run lib g w name h Hcall). cbv zeta.
    destruct (primary_value _ _); cbn [snd]; auto.
  - unfold App.direct_car_lookup_text, bind, emit. cbv beta iota.
    rewrite (primary_attempt_no_method lib g w _ _ Hcall).
    rewrite http_fallback_run. cbn [snd app]. auto.
Qed.

(** C4, as the code has it: the direct lookup calls the client with the
    prompt alone, so the call passes no [max_output_tokens]; the limit of
    512 is set only in the body of the request to the raw endpoint, as
    [generationConfig.maxOutputTokens]. *)
Theorem direct_lookup_token_arguments
    (lib : PyLib) (g : App.Globals) (w : World) (h : list event) (name : str) :
  let t := snd (App.direct_car_lookup_text lib g w name h) in
  Forall (fun e => prompt_only e = true
                   /\ call_keyword e (lit "max_output_tokens") = None)
    (llm_calls t)
  /\ Forall (fun e => post_output_limit e = Some 512%Z) (http_posts t).
Proof.
  intros t.
  assert (Hpost : post_output_limit
                    (EHttpPost (App.fallback_url g)
                       (App.fallback_payload (App.direct_prompt name)) 30)
                  = Some 512%Z).
  { reflexivity. }
  subst t.
  destruct (direct_lookup_trace lib g w h name) as [-> | [-> | ->]];
    cbn [llm_calls http_posts List.filter]; split;
    repeat constructor; assumption.
Qed.

(** C4 as stated fails: the one call the direct lookup makes to the
    client passes no [max_output_tokens] at all, and the client it is
    made on was not built with 512 either. *)
Lemma direct_lookup_call_passes_no_limit :
  llm_calls (snd (App.direct_car_lookup_text Examples.lib0 Examples.g0
                    Examples.w_up (lit "Swift") []))
  = [ELlmCall (App.llm Examples.g0) (App.direct_prompt (lit "Swift")) []]
  /\ call_keyword
       (ELlmCall (App.llm Examples.g0) (App.direct_prompt (lit "Swift")) [])
       (lit "max_output_tokens")
     = None
  /\ App.module_init Examples.local_host = Ok Examples.g0
  /\ max_tokens (App.llm Examples.g0) <> 512
  /\ ~ Forall
         (fun e => call_keyword e (lit "max_output_tokens")
                   = Some (VJson (JInt 512)))
         (llm_calls (snd (App.direct_car_lookup_text Examples.lib0 Examples.g0
                            Examples.w_up (lit "Swift") []))).
Proof.
  assert (E : llm_calls (snd (App.direct_car_lookup_text Examples.lib0 Examples.g0
                                Examples.w_up (lit "Swift") []))
              = [ELlmCall (App.llm Examples.g0) (App.direct_prompt (lit "Swift")) []])
    by (vm_compute; reflexivity).
  split; [exact E|]. split; [reflexivity|].
  split; [vm_compute; reflexivity|].
  split; [vm_compute; discriminate|].
  rewrite E. intros H. inversion H as [|e l Hhead _]. discriminate Hhead.
Qed.

(** C6, as the code has it: the raw fallback returns the value found at
    [candidates[0].content.parts[0].text] of the decoded body; when the
    body was decoded but has no such path, it returns [json.dumps] of
    the whole decoded body; and when the request, its status or the
    decoding fails, it returns the text ["Error calling Gemini: "]
    followed by the error. *)
Theorem http_fallback_extracts_or_dumps
    (lib : PyLib) (g : App.Globals) (w : World) (h : list event) (prompt : str) :
  let response :=
    requests_post w (service_history h) (App.fallback_url g)
      (App.fallback_payload prompt) 30 in
  let returned := fst (App.http_fallback lib g w prompt h) in
  (forall data x,
      decoded_response response = Returned data ->
      App.extract_text data = Ok x ->
      returned = Ok (VJson x))
  /\ (forall data e,
         decoded_response response = Returned data ->
         App.extract_text data = Raise e ->
         returned = Ok (VStr (json_dumps_json lib data)))
  /\ (forall msg,
         decoded_response response = Failed msg ->
         returned = Ok (VStr (lit "Error calling Gemini: " ++ msg))).
Proof.
  intros response returned. subst returned.
  rewrite http_fallback_run. fold response. cbn [fst].
  repeat split.
  - intros data x -> Hx. cbn [fallback_value]. rewrite Hx. reflexivity.
  - intros data e -> He. cbn [fallback_value]. rewrite He. reflexivity.
  - intros msg ->. reflexivity.
Qed.

(** C6 as stated fails: a response that is accepted but whose body is not
    JSON has no such path, and the direct lookup returns an error text
    for it, not the body it received. *)
Lemma non_json_body_is_not_returned :
  let resp := {| status_error := None;
                 json_body := Failed (lit "Expecting value");
                 text := lit "<html>" |} in
  requests_post Examples.w_html
    [ELlmCall (App.llm Examples.g0) (App.direct_prompt (lit "Swift")) []]
    (App.fallback_url Examples.g0)
    (App.fallback_payload (App.direct_prompt (lit "Swift"))) 30
  = Returned resp
  /\ fst (App.direct_car_lookup_text Examples.lib0 Examples.g0 Examples.w_html
            (lit "Swift") [])
     = Ok (VStr (lit "Error calling Gemini: Expecting value"))
  /\ fst (App.direct_car_lookup_text Examples.lib0 Examples.g0 Examples.w_html
            (lit "Swift") [])
     <> Ok (VStr (text resp)).
Proof.
  cbv zeta. split; [reflexivity|].
  assert (E : fst (App.direct_car_lookup_text Examples.lib0 Examples.g0
                     Examples.w_html (lit "Swift") [])
              = Ok (VStr (lit "Error calling Gemini: Expecting value")))
    by (vm_compute; reflexivity).
  split; [exact E|].
  rewrite E. vm_compute. discriminate.
Qed.

(** ** What can be printed *)

Section Printing.

Implicit Types (s : str) (v : pyval) (h : list event).

Lemma has_surrogate_app s s' :
  has_surrogate (s ++ s') = has_surrogate s || has_surrogate s'.
Proof. unfold has_surrogate. apply existsb_app. Qed.

(** A literal of the source holds no surrogate. *)
Lemma has_surrogate_lit (text : string) : has_surrogate (lit text) = false.
Proof.
  unfold lit, has_surrogate.
  induction (list_ascii_of_string text) as [|a l IH]; [reflexivity|].
  cbn [List.map existsb]. rewrite IH, orb_false_r.
  unfold is_surrogate. pose proof (N_ascii_bounded a) as B.
  apply andb_false_intro1. apply N.leb_gt. lia.
Qed.

Lemma is_surrogate_hex_digit (d : N) :
  is_surrogate (hex_digit (d mod 16)) = false.
Proof.
  assert (B : d mod 16 < 16) by (apply N.mod_upper_bound; discriminate).
  unfold is_surrogate, hex_digit.
  apply andb_false_intro1. apply N.leb_gt.
  destruct (d mod 16 <? 10); lia.
Qed.

Lemma has_surrogate_hex4 (c : N) : has_surrogate (hex4 c) = false.
Proof.
  unfold hex4, has_surrogate. cbn [existsb].
  rewrite !is_surrogate_hex_digit. reflexivity.
Qed.

(** The message of the encoding error can itself be printed. *)
Lemma has_surrogate_encode_error s :
  has_surrogate (encode_error_text s) = false.
Proof.
  unfold encode_error_text, decimal.
  destruct (first_surrogate s O) as [[[i c] [|more]]|];
    rewrite ?has_surrogate_app, ?has_surrogate_lit, ?has_surrogate_hex4;
    reflexivity.
Qed.

(** The error [print] raises on a value can be printed. *)
Lemma unprintable_message v msg :
  unprintable v = Some msg -> unprintable (VObj msg) = None.
Proof.
  unfold unprintable. destruct (print_text v) as [s|]; [|discriminate].
  destruct (has_surrogate s); [|discriminate].
  intros [= <-]. cbn [print_text]. rewrite has_surrogate_encode_error.
  reflexivity.
Qed.

Lemma unprintable_text s :
  unprintable (VObj s)
  = if has_surrogate s then Some (encode_error_text s) else None.
Proof. reflexivity. Qed.

(** A value that is not text is always printed. *)
Lemma unprintable_not_text v :
  (forall s, v <> VStr s) -> (forall s, v <> VObj s) -> unprintable v = None.
Proof.
  intros Hs Ho. destruct v as [j|o]; [|elim (Ho o); reflexivity].
  destruct j; try reflexivity. elim (Hs s). reflexivity.
Qed.

Lemma print_value v h :
  App.print [v] h = (raised (unprintable v), [EPrint [v]]).
Proof.
  unfold App.print. cbn [print_error]. destruct (unprintable v); reflexivity.
Qed.

Lemma print_labelled (label : string) v h :
  App.print [VStr (lit label); v] h
  = (raised (unprintable v), [EPrint [VStr (lit label); v]]).
Proof.
  unfold App.print. cbn [print_error].
  unfold unprintable at 1, VStr. cbn [print_text].
  rewrite has_surrogate_lit. destruct (unprintable v); reflexivity.
Qed.

Lemma print_heading h :
  App.print [VStr (nl ++ lit "--- Car Details (raw) ---")] h
  = (Ok tt, [console_heading]).
Proof. reflexivity. Qed.

Lemma print_agent_output h :
  App.print [VStr (nl ++ lit "Agent Output:" ++ nl)] h
  = (Ok tt, [EPrint [VStr (nl ++ lit "Agent Output:" ++ nl)]]).
Proof. reflexivity. Qed.

Lemma print_fallback_notice h :
  App.print [VStr (nl ++ lit "FALLBACK: Extracting requirements using LLM directly...")] h
  = (Ok tt, [fallback_notice]).
Proof. reflexivity. Qed.

Lemma print_goodbye h :
  App.print [VStr (lit "Goodbye!")] h
  = (Ok tt, [EPrint [VStr (lit "Goodbye!")]]).
Proof. reflexivity. Qed.


End Printing.

(** ** Runs of the two entry points *)

Section Handlers.

Variable lib : PyLib.
Variable g : App.Globals.
Variable w : World.

Implicit Types (h t : list event) (q name line e : str) (raw : pyval).

(** The services see service calls only: two histories with the same
    service calls get the same direct lookup. *)
Lemma direct_lookup_history name h h' :
  service_history h = service_history h' ->
  App.direct_car_lookup_text lib g w name h
  = App.direct_car_lookup_text lib g w name h'.
Proof.
  intros Hsame.
  unfold App.direct_car_lookup_text, bind, emit. cbv beta iota.
  assert (P : App.primary_attempt lib g w (App.direct_prompt name)
                (h ++ [EDirectLookup name])
              = App.primary_attempt lib g w (App.direct_prompt name)
                  (h' ++ [EDirectLookup name])).
  { destruct (llm_has_call w) eqn:Hcall.
    - rewrite !(primary_attempt_run lib g w _ _ Hcall).
      rewrite !service_history_display by reflexivity.
      rewrite Hsame. reflexivity.
    - rewrite !(primary_attempt_no_method lib g w _ _ Hcall). reflexivity. }
  rewrite P.
  destruct (App.primary_attempt lib g w (App.direct_prompt name)
              (h' ++ [EDirectLookup name])) as [[[v|]|e] t]; try reflexivity.
  rewrite !http_fallback_run.
  rewrite !(service_history_app _ t).
  rewrite !service_history_display by reflexivity.
  rewrite Hsame. reflexivity.
Qed.

(** Lines 169 to 173 do what [console_shown] says. *)
Lemma console_show_lookup_run raw h :
  App.show_lookup lib raw h = console_shown lib raw.
Proof.
  unfold App.show_lookup, console_shown, try_bare, bind, lift.
  rewrite print_heading.
  destruct (json_loads lib raw) as [parsed|e]; cbv beta iota zeta.
  - rewrite print_value.
    destruct (unprintable (VStr (json_dumps_indent2 lib parsed))) as [msg|];
      cbn [raised]; cbv beta iota; [|reflexivity].
    rewrite print_value. destruct (unprintable raw); reflexivity.
  - rewrite print_value. destruct (unprintable raw); reflexivity.
Qed.

(** Lines 36 to 41 of the page do what [page_shown] says. *)
Lemma page_show_lookup_run raw h :
  Ui.show_lookup lib w raw h = page_shown lib w raw.
Proof.
  unfold Ui.show_lookup, page_shown, Ui.st_subheader, Ui.st_json, Ui.st_code,
    Ui.show, try_bare, bind, lift, emit.
  destruct (json_loads lib raw) as [parsed|e]; cbv beta iota zeta.
  - destruct (st_refuses w (EStJson parsed)) as [msg|];
      cbn [raised]; cbv beta iota; [|reflexivity].
    destruct (st_refuses w (EStCode raw)); reflexivity.
  - destruct (st_refuses w (EStCode raw)); reflexivity.
Qed.

(** The console's handler does what [console_fallback] says. *)
Lemma console_crew_fallback_run q e h :
  App.crew_fallback g w q e h = console_fallback g w q e (service_history h).
Proof.
  unfold App.crew_fallback, console_fallback, App.call_llm,
    try_except, bind, raise.
  rewrite print_labelled. fold (crew_error_line e).
  destruct (unprintable (VObj e)) as [msg|]; cbn [raised]; cbv beta iota;
    [reflexivity|].
  rewrite print_fallback_notice. cbv beta iota.
  change (lit "Extract JSON requirements from this user query:" ++ nl
          ++ q ++ nl ++ lit "Return JSON only.")
    with (App.extraction_prompt q).
  destruct (llm_has_call w); cbv beta iota.
  - rewrite !service_history_app.
    cbn [service_history List.filter is_service crew_error_line fallback_notice].
    rewrite ?app_nil_r. fold (service_history h).
    destruct (llm_call w (service_history h) (App.llm g)
                (App.extraction_prompt q)) as [req|e2];
      cbn [of_outcome]; cbv beta iota.
    + rewrite print_labelled.
      destruct (unprintable req) as [msg|] eqn:Hreq; cbn [raised];
        cbv beta iota; [|reflexivity].
      rewrite print_labelled. rewrite (unprintable_message req msg Hreq).
      reflexivity.
    + rewrite print_labelled. fold (fallback_error_line e2).
      destruct (unprintable (VObj e2)); reflexivity.
  - rewrite print_labelled. reflexivity.
Qed.

(** The page's handler does what [page_fallback] says. *)
Lemma page_crew_fallback_run q e h :
  Ui.crew_fallback g w q e h = page_fallback g w q e (service_history h).
Proof.
  unfold Ui.crew_fallback, page_fallback, App.call_llm, Ui.st_error,
    Ui.st_info, Ui.st_code, Ui.show, try_except, bind, raise, emit.
  fold (page_error e).
  destruct (st_refuses w (page_error e)) as [msg|]; cbn [raised];
    cbv beta iota zeta; [reflexivity|].
  change (lit "Extract JSON requirements from this user query:" ++ nl
          ++ q ++ nl ++ lit "Return JSON only.")
    with (App.extraction_prompt q).
  destruct (llm_has_call w); cbv beta iota.
  - rewrite !service_history_app.
    cbn [service_history List.filter is_service page_error].
    rewrite ?app_nil_r. fold (service_history h).
    destruct (llm_call w (service_history h) (App.llm g)
                (App.extraction_prompt q)) as [req|e2];
      cbn [of_outcome]; cbv beta iota.
    + destruct (st_refuses w (EStCode req)) as [msg|]; cbn [raised];
        cbv beta iota; [|reflexivity].
      fold (page_fallback_error msg).
      destruct (st_refuses w (page_fallback_error msg)); reflexivity.
    + fold (page_fallback_error e2).
      destruct (st_refuses w (page_fallback_error e2)); reflexivity.
  - unfold page_fallback_error, no_call_message.
    destruct (st_refuses w _); reflexivity.
Qed.

(** The console on a short query: the lookup, then its display. *)
Lemma console_direct_run q h raw t1 :
  (List.length (split q) <= 3)%nat ->
  App.direct_car_lookup_text lib g w q h = (Ok raw, t1) ->
  App.handle_query lib g w q h
  = (fst (console_shown lib raw),
     ERoute q :: t1 ++ snd (console_shown lib raw)).
Proof.
  intros Hshort Hrun.
  apply Nat.leb_le in Hshort.
  unfold App.handle_query, bind, emit.
  cbv beta iota. rewrite Hshort.
  rewrite (direct_lookup_history q (h ++ [ERoute q]) h)
    by (apply service_history_display; reflexivity).
  rewrite Hrun. rewrite console_show_lookup_run.
  destruct (console_shown lib raw). reflexivity.
Qed.

(** The page on a short query: the lookup, then its display, then
    [st.stop()] unless the display raised. *)
Lemma web_direct_run q h raw t1 :
  strip q <> [] ->
  (List.length (split q) <= 3)%nat ->
  App.direct_car_lookup_text lib g w q h = (Ok raw, t1) ->
  Ui.processing lib g w q h
  = (match fst (page_shown lib w raw) with
     | Ok _ => Raise StopException
     | Raise e => Raise e
     end,
     EStSpinnerEnter (lit "Processing your query... " ++ [0x23F3])
     :: ERoute q :: t1 ++ snd (page_shown lib w raw) ++ [EStSpinnerExit]).
Proof.
  intros Hfilled Hshort Hrun.
  apply Nat.leb_le in Hshort.
  unfold Ui.processing, Ui.with_spinner, Ui.st_stop,
    finally, bind, emit, raise, ret.
  destruct (strip q) as [|c s] eqn:Hstrip; [congruence|].
  cbn [is_empty]. cbv beta iota. rewrite Hshort.
  rewrite (direct_lookup_history q _ h)
    by (rewrite !service_history_app; cbn; rewrite !app_nil_r; reflexivity).
  rewrite Hrun. rewrite page_show_lookup_run.
  destruct (page_shown lib w raw) as [[u|e] t]; cbn [fst snd app];
    rewrite <- ?app_assoc, ?app_nil_r; cbn [app]; reflexivity.
Qed.

(** The console on a long query. *)
Lemma console_chain_run q h :
  (3 < List.length (split q))%nat ->
  let inputs := [(lit "query", VStr q)] in
  let calls := service_history h ++ [ECrewKickoff inputs] in
  let agent_output := EPrint [VStr (nl ++ lit "Agent Output:" ++ nl)] in
  App.handle_query lib g w q h
  = match crew_kickoff w (service_history h) inputs with
    | Returned result =>
        match unprintable result with
        | None =>
            (Ok tt, [ERoute q; ECrewKickoff inputs; agent_output; EPrint [result]])
        | Some msg =>
            (fst (console_fallback g w q msg calls),
             [ERoute q; ECrewKickoff inputs; agent_output; EPrint [result]]
             ++ snd (console_fallback g w q msg calls))
        end
    | Failed e =>
        (fst (console_fallback g w q e calls),
         [ERoute q; ECrewKickoff inputs]
         ++ snd (console_fallback g w q e calls))
    end.
Proof.
  intros Hlong inputs calls agent_output.
  assert (Htest : (List.length (split q) <=? 3)%nat = false)
    by (apply Nat.leb_gt; exact Hlong).
  unfold App.handle_query, App.kickoff, try_except, bind, emit.
  cbv beta iota. rewrite Htest.
  rewrite service_history_display by reflexivity.
  fold inputs.
  destruct (crew_kickoff w (service_history h) inputs) as [result|e];
    cbn [of_outcome]; cbv beta iota.
  - rewrite print_agent_output. cbv beta iota. rewrite print_value.
    fold agent_output.
    destruct (unprintable result) as [msg|]; cbn [raised]; cbv beta iota;
      [|reflexivity].
    rewrite console_crew_fallback_run.
    rewrite !service_history_app.
    cbn [service_history List.filter is_service]. rewrite ?app_nil_r.
    fold (service_history h). fold calls.
    destruct (console_fallback g w q msg calls). reflexivity.
  - rewrite console_crew_fallback_run.
    rewrite !service_history_app.
    cbn [service_history List.filter is_service]. rewrite ?app_nil_r.
    fold (service_history h). fold calls.
    destruct (console_fallback g w q e calls). reflexivity.
Qed.

(** The page on a long query. *)
Lemma web_chain_run q h :
  (3 < List.length (split q))%nat ->
  let inputs := [(lit "query", VStr q)] in
  let calls := service_history h ++ [ECrewKickoff inputs] in
  let enter := EStSpinnerEnter (lit "Processing your query... " ++ [0x23F3]) in
  Ui.processing lib g w q h
  = match crew_kickoff w (service_history h) inputs with
    | Returned result =>
        match fst (page_crew_shown lib w result) with
        | None =>
            (Ok tt,
             [enter; ERoute q; ECrewKickoff inputs]
             ++ snd (page_crew_shown lib w result) ++ [EStSpinnerExit])
        | Some msg =>
            (fst (page_fallback g w q msg calls),
             [enter; ERoute q; ECrewKickoff inputs]
             ++ snd (page_crew_shown lib w result)
             ++ snd (page_fallback g w q msg calls) ++ [EStSpinnerExit])
        end
    | Failed e =>
        (fst (page_fallback g w q e calls),
         [enter; ERoute q; ECrewKickoff inputs]
         ++ snd (page_fallback g w q e calls) ++ [EStSpinnerExit])
    end.
Proof.
  intros Hlong inputs calls enter.
  assert (Htest : (List.length (split q) <=? 3)%nat = false)
    by (apply Nat.leb_gt; exact Hlong).
  assert (Hfilled : strip q <> []).
  { intros E. apply strip_nil_iff, split_nil_iff in E.
    rewrite E in Hlong. inversion Hlong. }
  unfold Ui.processing, Ui.with_spinner, Ui.st_subheader, Ui.st_json,
    Ui.st_text, Ui.show, App.kickoff,
    finally, try_except, try_bare, bind, emit, lift, ret.
  destruct (strip q) as [|c s] eqn:Hstrip; [congruence|].
  cbn [is_empty]. cbv beta iota. rewrite Htest. cbv beta iota.
  rewrite !service_history_app.
  cbn [service_history List.filter is_service]. rewrite ?app_nil_r.
  fold (service_history h). fold inputs enter.
  destruct (crew_kickoff w (service_history h) inputs) as [result|e];
    cbn [of_outcome]; cbv beta iota.
  - unfold page_crew_shown.
    destruct (json_loads lib result) as [parsed|e]; cbv beta iota zeta.
    + destruct (st_refuses w (EStJson parsed)) as [msg|]; cbn [raised fst snd];
        cbv beta iota; [|reflexivity].
      destruct (st_refuses w (EStText result)) as [msg'|]; cbn [raised fst snd];
        cbv beta iota; [|reflexivity].
      rewrite page_crew_fallback_run.
      rewrite !service_history_app.
      cbn [service_history List.filter is_service]. rewrite ?app_nil_r.
      fold (service_history h). fold calls.
      destruct (page_fallback g w q msg' calls) as [r t]. cbn [fst snd app].
      rewrite <- ?app_assoc. reflexivity.
    + destruct (st_refuses w (EStText result)) as [msg'|]; cbn [raised fst snd];
        cbv beta iota; [|reflexivity].
      rewrite page_crew_fallback_run.
      rewrite !service_history_app.
      cbn [service_history List.filter is_service]. rewrite ?app_nil_r.
      fold (service_history h). fold calls.
      destruct (page_fallback g w q msg' calls) as [r t]. cbn [fst snd app].
      rewrite <- ?app_assoc. reflexivity.
  - rewrite page_crew_fallback_run.
    rewrite !service_history_app.
    cbn [service_history List.filter is_service]. rewrite ?app_nil_r.
    fold (service_history h). fold calls.
    destruct (page_fallback g w q e calls) as [r t]. cbn [fst snd app].
    rewrite <- ?app_assoc. reflexivity.
Qed.

End Handlers.

(** ** What the display blocks and the handlers add to a trace *)

Section Blocks.

Variable lib : PyLib.
Variable g : App.Globals.
Variable w : World.

Implicit Types (h t calls : list event) (q e : str) (raw : pyval).

(** Showing a looked-up value calls nothing. *)
Lemma console_shown_events raw :
  let t := snd (console_shown lib raw) in
  policy_events t = [] /\ spinner_events t = []
  /\ routes t = [] /\ direct_lookups t = [] /\ crew_kickoffs t = []
  /\ llm_calls t = [] /\ http_posts t = [].
Proof.
  cbv zeta. unfold console_shown.
  destruct (json_loads lib raw); cbv zeta;
    [destruct (unprintable _)|]; repeat split; reflexivity.
Qed.

Lemma page_shown_events raw :
  let t := snd (page_shown lib w raw) in
  policy_events t = [] /\ spinner_events t = []
  /\ routes t = [] /\ direct_lookups t = [] /\ crew_kickoffs t = []
  /\ llm_calls t = [] /\ http_posts t = [].
Proof.
  cbv zeta. unfold page_shown.
  destruct (json_loads lib raw);
    [destruct (st_refuses w _)|]; repeat split; reflexivity.
Qed.

Lemma page_crew_shown_events raw :
  let t := snd (page_crew_shown lib w raw) in
  policy_events t = [] /\ spinner_events t = []
  /\ routes t = [] /\ direct_lookups t = [] /\ crew_kickoffs t = []
  /\ llm_calls t = [] /\ http_posts t = [].
Proof.
  cbv zeta. unfold page_crew_shown.
  destruct (json_loads lib raw); cbv zeta;
    [destruct (st_refuses w _)|]; repeat split; reflexivity.
Qed.

(** The console's handler calls the client at most once and nothing
    else. *)
Lemma console_fallback_events q e calls :
  let t := snd (console_fallback g w q e calls) in
  let call := ELlmCall (App.llm g) (App.extraction_prompt q) [] in
  (llm_calls t = [] \/ llm_calls t = [call])
  /\ policy_events t = llm_calls t /\ spinner_events t = []
  /\ routes t = [] /\ direct_lookups t = [] /\ crew_kickoffs t = []
  /\ http_posts t = [].
Proof.
  cbv zeta. unfold console_fallback. cbv zeta.
  destruct (unprintable (VObj e)); [repeat split; auto|].
  destruct (llm_has_call w); [|repeat split; auto].
  destruct (llm_call w calls _ _) as [req|e2];
    [destruct (unprintable req)|]; repeat split; auto.
Qed.

Lemma page_fallback_events q e calls :
  let t := snd (page_fallback g w q e calls) in
  let call := ELlmCall (App.llm g) (App.extraction_prompt q) [] in
  (llm_calls t = [] \/ llm_calls t = [call])
  /\ policy_events t = llm_calls t /\ spinner_events t = []
  /\ routes t = [] /\ direct_lookups t = [] /\ crew_kickoffs t = []
  /\ http_posts t = [].
Proof.
  cbv zeta. unfold page_fallback. cbv zeta.
  destruct (st_refuses w (page_error e)); [repeat split; auto|].
  destruct (llm_has_call w); [|repeat split; auto].
  destruct (llm_call w calls _ _) as [req|e2];
    [destruct (st_refuses w (EStCode req))|]; repeat split; auto.
Qed.



(** What a direct lookup leaves in the trace: one marker of its own, no
    route, no crew, no spinner, and nothing but policy events. *)
Lemma direct_lookup_markers h name :
  let t := snd (App.direct_car_lookup_text lib g w name h) in
  direct_lookups t = [EDirectLookup name]
  /\ crew_kickoffs t = []
  /\ routes t = []
  /\ policy_events t = t
  /\ spinner_events t = [].
Proof.
  intros t. subst t.
  destruct (direct_lookup_trace lib g w h name) as [-> | [-> | ->]];
    repeat split; reflexivity.
Qed.

(** Where the console sends a query, whatever can be displayed. *)
Lemma console_dispatch q h :
  let t := snd (App.handle_query lib g w q h) in
  routes t = [ERoute q]
  /\ direct_lookups t = (if is_short q then [EDirectLookup q] else [])
  /\ crew_kickoffs t
     = (if is_short q then [] else [ECrewKickoff [(lit "query", VStr q)]]).
Proof.
  cbv zeta. unfold is_short.
  destruct (Nat.leb_spec (List.length (split q)) 3) as [Hshort | Hlong].
  - destruct (direct_lookup_returns lib g w q h) as (raw & t1 & Hrun).
    destruct (direct_lookup_markers h q) as (Hd & Hk & Hr & _).
    rewrite Hrun in Hd, Hk, Hr.
    destruct (console_shown_events raw) as (_ & _ & Sr & Sd & Sk & _).
    rewrite (console_direct_run lib g w q h raw t1 Hshort Hrun).
    count_all. rewrite Hd, Hk, Hr, Sr, Sd, Sk. repeat split; reflexivity.
  - rewrite (console_chain_run lib g w q h Hlong). cbv zeta.
    destruct (crew_kickoff w _ _) as [result|e].
    + destruct (unprintable result) as [msg|]; [|repeat split; reflexivity].
      destruct (console_fallback_events q msg
                  (service_history h ++ [ECrewKickoff [(lit "query", VStr q)]]))
        as (_ & _ & _ & Fr & Fd & Fk & _).
      count_all. rewrite Fr, Fd, Fk. repeat split; reflexivity.
    + destruct (console_fallback_events q e
                  (service_history h ++ [ECrewKickoff [(lit "query", VStr q)]]))
        as (_ & _ & _ & Fr & Fd & Fk & _).
      count_all. rewrite Fr, Fd, Fk. repeat split; reflexivity.
Qed.

(** Where the page sends a text that is not blank. *)
Lemma web_dispatch q h :
  strip q <> [] ->
  let t := snd (Ui.processing lib g w q h) in
  routes t = [ERoute q]
  /\ direct_lookups t = (if is_short q then [EDirectLookup q] else [])
  /\ crew_kickoffs t
     = (if is_short q then [] else [ECrewKickoff [(lit "query", VStr q)]]).
Proof.
  intros Hfilled. cbv zeta. unfold is_short.
  destruct (Nat.leb_spec (List.length (split q)) 3) as [Hshort | Hlong].
  - destruct (direct_lookup_returns lib g w q h) as (raw & t1 & Hrun).
    destruct (direct_lookup_markers h q) as (Hd & Hk & Hr & _).
    rewrite Hrun in Hd, Hk, Hr.
    destruct (page_shown_events raw) as (_ & _ & Sr & Sd & Sk & _).
    rewrite (web_direct_run lib g w q h raw t1 Hfilled Hshort Hrun).
    count_all. rewrite Hd, Hk, Hr, Sr, Sd, Sk. repeat split; reflexivity.
  - rewrite (web_chain_run lib g w q h Hlong). cbv zeta.
    destruct (crew_kickoff w _ _) as [result|e].
    + destruct (page_crew_shown_events result) as (_ & _ & Sr & Sd & Sk & _).
      destruct (fst (page_crew_shown lib w result)) as [msg|].
      * destruct (page_fallback_events q msg
                    (service_history h ++ [ECrewKickoff [(lit "query", VStr q)]]))
          as (_ & _ & _ & Fr & Fd & Fk & _).
        count_all. rewrite Sr, Sd, Sk, Fr, Fd, Fk. repeat split; reflexivity.
      * count_all. rewrite Sr, Sd, Sk. repeat split; reflexivity.
    + destruct (page_fallback_events q e
                  (service_history h ++ [ECrewKickoff [(lit "query", VStr q)]]))
        as (_ & _ & _ & Fr & Fd & Fk & _).
      count_all. rewrite Fr, Fd, Fk. repeat split; reflexivity.
Qed.


End Blocks.

(** ** The loop of the console *)

Section Loop.

Variable lib : PyLib.
Variable g : App.Globals.
Variable w : World.

Implicit Types (h t : list event) (q name line : str).

(** An iteration on a query hands the stripped line to [handle_query];
    it asks for the next line if that returns. *)
Lemma iteration_query line h :
  strip line <> [] ->
  App.is_exit_command lib (strip line) = false ->
  App.iteration lib g w line h
  = (match fst (App.handle_query lib g w (strip line) h) with
     | Ok _ => Ok App.LoopAgain
     | Raise e => Raise e
     end,
     snd (App.handle_query lib g w (strip line) h)).
Proof.
  intros Hfilled Hquery. unfold App.iteration.
  destruct (strip line) as [|c s] eqn:Hstrip; [congruence|].
  cbn [is_empty]. rewrite Hquery.
  unfold bind, ret.
  destruct (App.handle_query lib g w (c :: s) h) as [[u|e] t]; cbn [fst snd];
    rewrite ?app_nil_r; reflexivity.
Qed.

Lemma iteration_run line h t :
  strip line <> [] ->
  App.is_exit_command lib (strip line) = false ->
  App.handle_query lib g w (strip line) h = (Ok tt, t) ->
  App.iteration lib g w line h = (Ok App.LoopAgain, t).
Proof.
  intros Hfilled Hquery Hrun.
  rewrite (iteration_query line h Hfilled Hquery). rewrite Hrun. reflexivity.
Qed.


Lemma iteration_command line h :
  exits lib line = true ->
  App.iteration lib g w line h
  = (Ok App.LoopBreak, [EPrint [VStr (lit "Goodbye!")]]).
Proof.
  unfold exits. intros H. apply andb_prop in H as [Hne Hcmd].
  unfold App.iteration. destruct (strip line); [discriminate|].
  cbn [is_empty]. rewrite Hcmd. unfold bind, ret.
  rewrite print_goodbye. reflexivity.
Qed.


(** After an iteration that asks for the next line, the loop reads it. *)
Lemma main_loop_again line rest h t :
  App.iteration lib g w line (h ++ [EInput App.input_prompt])
    = (Ok App.LoopAgain, t) ->
  App.main_loop lib g w (line :: rest) h
  = (let (r, t') := App.main_loop lib g w rest
                      (h ++ EInput App.input_prompt :: t) in
     (r, EInput App.input_prompt :: t ++ t')).
Proof.
  intros Hiter. cbn [App.main_loop]. unfold bind at 1, emit.
  unfold bind at 1. rewrite Hiter.
  rewrite <- app_assoc. cbn [app].
  destruct (App.main_loop lib g w rest (h ++ EInput App.input_prompt :: t)).
  reflexivity.
Qed.

(** The loop stops at a command without reading further. *)
Lemma main_loop_break line rest h t :
  App.iteration lib g w line (h ++ [EInput App.input_prompt])
    = (Ok App.LoopBreak, t) ->
  App.main_loop lib g w (line :: rest) h
  = (Ok tt, EInput App.input_prompt :: t).
Proof.
  intros Hiter. cbn [App.main_loop]. unfold bind at 1, emit.
  unfold bind at 1. rewrite Hiter. cbn [ret app]. rewrite app_nil_r.
  reflexivity.
Qed.

(** An exception that leaves an iteration ends the loop. *)
Lemma main_loop_raise line rest h e t :
  App.iteration lib g w line (h ++ [EInput App.input_prompt])
    = (Raise e, t) ->
  App.main_loop lib g w (line :: rest) h
  = (Raise e, EInput App.input_prompt :: t).
Proof.
  intros Hiter. cbn [App.main_loop]. unfold bind at 1, emit.
  unfold bind at 1. rewrite Hiter. reflexivity.
Qed.

End Loop.

(** ** Routing *)

Lemma route_direct_iff (q : str) :
  route q = DirectLookup <-> (List.length (split q) <= 3)%nat.
Proof.
  unfold route. destruct (Nat.leb_spec (List.length (split q)) 3); split;
    intros; try discriminate; try lia; reflexivity.
Qed.

Lemma route_chain_iff (q : str) :
  route q = Chain <-> (3 < List.length (split q))%nat.
Proof.
  unfold route. destruct (Nat.leb_spec (List.length (split q)) 3); split;
    intros; try discriminate; try lia; reflexivity.
Qed.

Lemma console_selected
    (lib : PyLib) (g : App.Globals) (w : World) (h : list event) (q : str) :
  let t := snd (App.handle_query lib g w q h) in
  routes t = [ERoute q] /\ selected t = Some (route q).
Proof.
  cbv zeta. destruct (console_dispatch lib g w q h) as (Hr & Hd & Hk).
  split; [exact Hr|]. unfold selected, route. rewrite Hd, Hk.
  unfold is_short. destruct (List.length (split q) <=? 3)%nat; reflexivity.
Qed.

Lemma web_selected
    (lib : PyLib) (g : App.Globals) (w : World) (h : list event) (q : str) :
  strip q <> [] ->
  let t := snd (Ui.processing lib g w q h) in
  routes t = [ERoute q] /\ selected t = Some (route q).
Proof.
  intros Hfilled. cbv zeta.
  destruct (web_dispatch lib g w q h Hfilled) as (Hr & Hd & Hk).
  split; [exact Hr|]. unfold selected, route. rewrite Hd, Hk.
  unfold is_short. destruct (List.length (split q) <=? 3)%nat; reflexivity.
Qed.

(** C1: for every input that is not empty, each entry point passes the
    router once and enters the direct lookup exactly when the text has at
    most three whitespace-separated tokens, and the chain exactly when it
    has more; what is selected is [route], a function of the text alone,
    whatever the services answer.  The console, which strips the line
    first and keeps [exit] and [quit] for itself, selects the same. *)
Theorem router_selects_by_token_count
    (lib : PyLib) (g : App.Globals) (w : World) (h : list event) (q : str) :
  strip q <> [] ->
  let web := snd (Ui.processing lib g w q h) in
  let console := snd (App.handle_query lib g w q h) in
  (route q = DirectLookup <-> (List.length (split q) <= 3)%nat)
  /\ (route q = Chain <-> (3 < List.length (split q))%nat)
  /\ routes web = [ERoute q]
  /\ selected web = Some (route q)
  /\ routes console = [ERoute q]
  /\ selected console = Some (route q)
  /\ (App.is_exit_command lib (strip q) = false ->
      selected (snd (App.iteration lib g w q h)) = Some (route q)).
Proof.
  intros Hfilled web console.
  destruct (web_selected lib g w h q Hfilled) as [Hwr Hws].
  destruct (console_selected lib g w h q) as [Hcr Hcs].
  split; [apply route_direct_iff|]. split; [apply route_chain_iff|].
  repeat (split; [assumption|]).
  intros Hquery.
  rewrite (iteration_query lib g w q h Hfilled Hquery). cbn [snd].
  destruct (console_selected lib g w h (strip q)) as [_ Hsel].
  rewrite Hsel. unfold route. rewrite split_strip. reflexivity.
Qed.

Lemma router_selects_by_token_count_witness :
  strip (lit "Honda City") <> []
  /\ route (lit "Honda City") = DirectLookup
  /\ selected (snd (Ui.processing Examples.lib0 Examples.g0 Examples.w_up
                      (lit "Honda City") []))
     = Some DirectLookup
  /\ selected (snd (App.handle_query Examples.lib0 Examples.g0 Examples.w_up
                      (lit "Honda City") []))
     = Some DirectLookup.
Proof.
  assert (F : strip (lit "Honda City") <> []) by (vm_compute; discriminate).
  destruct (router_selects_by_token_count Examples.lib0 Examples.g0
              Examples.w_up [] (lit "Honda City") F)
    as (_ & _ & _ & Hweb & _ & Hconsole & _).
  split; [exact F|]. split; [reflexivity|].
  split; [exact Hweb | exact Hconsole].
Defined.

(** ** Empty input *)

(** C7: an input that is empty or made of whitespace only is turned away
    by both entry points before the router: the console asks for the next
    line without any event, the web page shows its warning and stops, and
    neither run holds a route, a direct lookup or a call to a service. *)
Theorem blank_input_never_reaches_router
    (lib : PyLib) (g : App.Globals) (w : World) (h : list event) (text : str) :
  forallb isspace text = true ->
  App.iteration lib g w text h = (Ok App.LoopAgain, [])
  /\ Ui.processing lib g w text h
     = (Raise StopException, [EStWarning (lit "Please enter some text!")])
  /\ policy_events (snd (App.iteration lib g w text h)) = []
  /\ policy_events (snd (Ui.processing lib g w text h)) = [].
Proof.
  intros Hblank. apply strip_nil_iff in Hblank.
  assert (Hconsole : App.iteration lib g w text h = (Ok App.LoopAgain, [])).
  { unfold App.iteration. rewrite Hblank. reflexivity. }
  assert (Hweb : Ui.processing lib g w text h
                 = (Raise StopException,
                    [EStWarning (lit "Please enter some text!")])).
  { unfold Ui.processing. rewrite Hblank. reflexivity. }
  rewrite Hconsole, Hweb. repeat split; reflexivity.
Qed.

Lemma blank_input_never_reaches_router_witness :
  forallb isspace (lit "   ") = true
  /\ App.iteration Examples.lib0 Examples.g0 Examples.w_up (lit "   ") []
     = (Ok App.LoopAgain, [])
  /\ Ui.processing Examples.lib0 Examples.g0 Examples.w_up (lit "   ") []
     = (Raise StopException, [EStWarning (lit "Please enter some text!")]).
Proof.
  assert (B : forallb isspace (lit "   ") = true) by reflexivity.
  destruct (blank_input_never_reaches_router Examples.lib0 Examples.g0
              Examples.w_up [] (lit "   ") B) as (Hconsole & Hweb & _).
  split; [exact B|]. split; [exact Hconsole | exact Hweb].
Defined.

(** ** Display of a looked-up value *)




(** ** Failure of the chain *)




(** ** Start-up *)

(** The local source is the environment first and the [.env] file for a
    variable the environment does not set. *)
Lemma read_local_sources (host : App.Host) :
  App.read_local host
  = match App.os_environ host !! App.key_name with
    | Some v => Some v
    | None => App.dotenv_file host !! App.key_name
    end.
Proof.
  unfold App.read_local, App.load_dotenv. rewrite lookup_union.
  destruct (App.os_environ host !! App.key_name);
    destruct (App.dotenv_file host !! App.key_name); reflexivity.
Qed.

(** C9, as the code has it: when Streamlit is installed and its secret
    store holds the key, the key is that value, whatever the environment
    and the [.env] file hold, also when that value is empty; only when
    the lookup in the store raises (no Streamlit, no store, no such
    entry) is the key taken from the environment or, for a variable the
    environment does not set, from the [.env] file.  Start-up binds its
    globals when the value so resolved is not empty and raises when it is
    missing or empty. *)
Theorem api_key_resolution (host : App.Host) :
  let local :=
    match App.os_environ host !! App.key_name with
    | Some v => Some v
    | None => App.dotenv_file host !! App.key_name
    end in
  let started (v : str) :=
    exists g, App.module_init host = Ok g
              /\ App.GEMINI_API_KEY g = v /\ api_key (App.llm g) = v in
  let failed := App.module_init host = Raise (Exception App.missing_key_message) in
  (forall secrets v,
     App.streamlit_installed host = true ->
     App.st_secrets host = Some secrets ->
     secrets !! App.key_name = Some v ->
     App.resolve_api_key host = Some v
     /\ (v <> [] -> started v)
     /\ (v = [] -> failed))
  /\ (App.streamlit_installed host = false
      \/ App.st_secrets host = None
      \/ (exists secrets, App.st_secrets host = Some secrets
                          /\ secrets !! App.key_name = None) ->
      App.resolve_api_key host = local
      /\ (forall v, local = Some v -> v <> [] -> started v)
      /\ (local = Some [] -> failed)
      /\ (local = None -> failed))
  /\ (forall g, App.module_init host = Ok g ->
        App.GEMINI_API_KEY g <> []
        /\ App.resolve_api_key host = Some (App.GEMINI_API_KEY g))
  /\ (App.resolve_api_key host = None \/ App.resolve_api_key host = Some [] ->
      failed).
Proof.
  intros local started failed.
  assert (Hstart : forall v, App.resolve_api_key host = Some v -> v <> [] ->
                     started v).
  { intros v Hv Hne. unfold started, App.module_init. rewrite Hv.
    destruct v as [|c v]; [congruence|]. cbn [is_empty].
    eexists. repeat split. }
  assert (Hfail : App.resolve_api_key host = None
                  \/ App.resolve_api_key host = Some [] -> failed).
  { unfold failed, App.module_init. intros [-> | ->]; reflexivity. }
  split; [|split; [|split]].
  - intros secrets v Hst Hstore Hkey.
    assert (Hv : App.resolve_api_key host = Some v).
    { unfold App.resolve_api_key, App.read_secret.
      rewrite Hst, Hstore, Hkey. reflexivity. }
    split; [exact Hv|]. split.
    + apply Hstart. exact Hv.
    + intros ->. apply Hfail. right. exact Hv.
  - intros Hraises.
    assert (Hlocal : App.resolve_api_key host = local).
    { unfold App.resolve_api_key, App.read_secret. subst local.
      rewrite <- read_local_sources.
      destruct Hraises as [-> | [Hnone | (secrets & Hstore & Hkey)]].
      - reflexivity.
      - rewrite Hnone. destruct (App.streamlit_installed host); reflexivity.
      - rewrite Hstore, Hkey.
        destruct (App.streamlit_installed host); reflexivity. }
    split; [exact Hlocal|]. rewrite <- Hlocal. split; [exact Hstart|].
    split; intros H; apply Hfail; auto.
  - intros g Hinit.
    destruct (module_init_globals host g Hinit) as (_ & _ & Hkey & Hne).
    split; assumption.
  - exact Hfail.
Qed.

Lemma api_key_resolution_witness :
  App.streamlit_installed Cases.cloud_host = true
  /\ App.st_secrets Cases.cloud_host = Some {[ App.key_name := lit "s-999" ]}
  /\ App.os_environ Cases.cloud_host !! App.key_name = Some (lit "k-123")
  /\ App.resolve_api_key Cases.cloud_host = Some (lit "s-999")
  /\ exists g, App.module_init Cases.cloud_host = Ok g
               /\ App.GEMINI_API_KEY g = lit "s-999"
               /\ api_key (App.llm g) = lit "s-999".
Proof.
  split; [reflexivity|]. split; [reflexivity|].
  split; [vm_compute; reflexivity|].
  destruct (proj1 (api_key_resolution Cases.cloud_host)
              {[ App.key_name := lit "s-999" ]} (lit "s-999")
              eq_refl eq_refl (lookup_singleton_eq _ _))
    as (Hkey & Hstarted & _).
  split; [exact Hkey|]. apply Hstarted. discriminate.
Defined.

(** C9 as stated fails: the secret store holds the key with an empty
    value and the environment holds a real one; the store comes first, its
    empty value is not passed over for the local one, and start-up
    raises although the local source yields a value. *)
Lemma empty_secret_blocks_local_key :
  App.streamlit_installed Cases.empty_secret_host = true
  /\ App.st_secrets Cases.empty_secret_host = Some {[ App.key_name := [] ]}
  /\ App.read_local Cases.empty_secret_host = Some (lit "k-123")
  /\ App.resolve_api_key Cases.empty_secret_host = Some []
  /\ App.module_init Cases.empty_secret_host
     = Raise (Exception App.missing_key_message).
Proof.
  split; [reflexivity|]. split; [reflexivity|].
  split; [vm_compute; reflexivity|].
  split; vm_compute; reflexivity.
Qed.

(** ** One policy behind both entry points *)

(** C10, as the code has it: the console strips the line it reads and
    keeps [exit] and [quit] for itself; to what is left it applies the
    policy the page applies to the text it is given.  For a line that is a
    query, the console's run and the page's run on the stripped line have
    the same route, the same direct lookup with the same calls, the same
    call to the crew, and each makes at most one call to the client after
    the crew, with the same extraction prompt.  The two make the same
    calls altogether on a short query, and on a long one when both can
    display what the crew answered; stripping does not change where a text
    is routed. *)
Theorem console_and_web_share_policy
    (lib : PyLib) (g : App.Globals) (w : World) (h h' : list event)
    (line : str) :
  service_history h = service_history h' ->
  strip line <> [] ->
  App.is_exit_command lib (strip line) = false ->
  let q := strip line in
  let inputs := [(lit "query", VStr q)] in
  let fallback_call := ELlmCall (App.llm g) (App.extraction_prompt q) [] in
  let console := snd (App.iteration lib g w line h) in
  let web := snd (Ui.processing lib g w q h') in
  route q = route line
  /\ (routes console = [ERoute q] /\ routes web = [ERoute q])
  /\ direct_lookups console = direct_lookups web
  /\ crew_kickoffs console = crew_kickoffs web
  /\ http_posts console = http_posts web
  /\ (is_short q = true -> policy_events console = policy_events web)
  /\ (is_short q = false ->
      (llm_calls console = [] \/ llm_calls console = [fallback_call])
      /\ (llm_calls web = [] \/ llm_calls web = [fallback_call]))
  /\ (page_accepts_all w ->
      printable_outcome (crew_kickoff w (service_history h) inputs) ->
      policy_events console = policy_events web).
Proof.
  intros Hsame Hfilled Hquery q inputs fallback_call console web.
  assert (Hconsole : console = snd (App.handle_query lib g w q h)).
  { subst console. rewrite (iteration_query lib g w line h Hfilled Hquery).
    reflexivity. }
  assert (Hq : strip q <> [])
    by (subst q; rewrite strip_idempotent; exact Hfilled).
  split; [unfold route; subst q; rewrite split_strip; reflexivity|].
  destruct (console_dispatch lib g w q h) as (Cr & Cd & Ck).
  destruct (web_dispatch lib g w q h' Hq) as (Wr & Wd & Wk).
  cbv zeta in Cr, Cd, Ck, Wr, Wd, Wk.
  rewrite <- Hconsole in Cr, Cd, Ck. fold web in Wr, Wd, Wk.
  split; [split; assumption|].
  split; [rewrite Cd, Wd; reflexivity|].
  split; [rewrite Ck, Wk; reflexivity|].
  rewrite Hconsole. subst web. clear Cr Cd Ck Wr Wd Wk Hconsole console.
  unfold is_short.
  destruct (Nat.leb_spec (List.length (split q)) 3) as [Hshort | Hlong].
  - destruct (direct_lookup_returns lib g w q h) as (raw & t1 & Hlookup).
    assert (Hlookup' : App.direct_car_lookup_text lib g w q h' = (Ok raw, t1))
      by (rewrite <- (direct_lookup_history lib g w q h h' Hsame); exact Hlookup).
    rewrite (console_direct_run lib g w q h raw t1 Hshort Hlookup).
    rewrite (web_direct_run lib g w q h' raw t1 Hq Hshort Hlookup').
    destruct (console_shown_events lib raw) as (Cp & _ & _ & _ & _ & _ & Ch).
    destruct (page_shown_events lib w raw) as (Wp & _ & _ & _ & _ & _ & Wh).
    assert (Hpolicy :
      policy_events
        (snd (fst (console_shown lib raw),
              ERoute q :: t1 ++ snd (console_shown lib raw)))
      = policy_events
          (snd (match fst (page_shown lib w raw) with
                | Ok _ => Raise StopException
                | Raise e => Raise e
                end : result unit,
                EStSpinnerEnter (lit "Processing your query... " ++ [0x23F3])
                :: ERoute q :: t1 ++ snd (page_shown lib w raw)
                   ++ [EStSpinnerExit]))).
    { count_all. rewrite Cp, Wp. reflexivity. }
    split; [|split; [intros _; exact Hpolicy|split;
      [discriminate | intros _ _; exact Hpolicy]]].
    count_all. rewrite Ch, Wh. reflexivity.
  - rewrite (console_chain_run lib g w q h Hlong).
    rewrite (web_chain_run lib g w q h' Hlong).
    cbv zeta. fold inputs. rewrite <- Hsame.
    set (calls := service_history h ++ [ECrewKickoff inputs]).
    assert (Hconsole_fallback : forall e,
      let t := snd (console_fallback g w q e calls) in
      (llm_calls t = [] \/ llm_calls t = [fallback_call])
      /\ policy_events t = llm_calls t /\ http_posts t = []).
    { intros e.
      destruct (console_fallback_events g w q e calls)
        as (H1 & H2 & _ & _ & _ & _ & H3). repeat split; assumption. }
    assert (Hpage_fallback : forall e,
      let t := snd (page_fallback g w q e calls) in
      (llm_calls t = [] \/ llm_calls t = [fallback_call])
      /\ policy_events t = llm_calls t /\ http_posts t = []).
    { intros e.
      destruct (page_fallback_events g w q e calls)
        as (H1 & H2 & _ & _ & _ & _ & H3). repeat split; assumption. }
    assert (Hpage_shown : forall result,
      let t := snd (page_crew_shown lib w result) in
      policy_events t = [] /\ llm_calls t = [] /\ http_posts t = []).
    { intros result.
      destruct (page_crew_shown_events lib w result)
        as (H1 & _ & _ & _ & _ & H2 & H3). repeat split; assumption. }
    cbv zeta in Hconsole_fallback, Hpage_fallback, Hpage_shown.
    split; [|split; [discriminate|split]].
    + destruct (crew_kickoff w (service_history h) inputs) as [result|e].
      * destruct (Hpage_shown result) as (_ & _ & Sh).
        destruct (unprintable result) as [msg|];
          destruct (fst (page_crew_shown lib w result)) as [msg'|];
          try destruct (Hconsole_fallback msg) as (_ & _ & Ch);
          try destruct (Hpage_fallback msg') as (_ & _ & Wh);
          count_all; rewrite ?Sh, ?Ch, ?Wh; reflexivity.
      * destruct (Hconsole_fallback e) as (_ & _ & Ch).
        destruct (Hpage_fallback e) as (_ & _ & Wh).
        count_all. rewrite Ch, Wh. reflexivity.
    + intros _.
      destruct (crew_kickoff w (service_history h) inputs) as [result|e].
      * destruct (Hpage_shown result) as (_ & Sl & _).
        destruct (unprintable result) as [msg|];
          destruct (fst (page_crew_shown lib w result)) as [msg'|];
          try destruct (Hconsole_fallback msg) as (Cl & _ & _);
          try destruct (Hpage_fallback msg') as (Wl & _ & _);
          count_all; rewrite ?Sl, ?app_nil_r; cbn [app]; split; auto.
      * destruct (Hconsole_fallback e) as (Cl & _ & _).
        destruct (Hpage_fallback e) as (Wl & _ & _).
        count_all. rewrite ?app_nil_r. split; auto.
    + intros Haccept Hprintable.
      destruct (crew_kickoff w (service_history h) inputs) as [result|e];
        cbn [printable_outcome] in Hprintable.
      * rewrite Hprintable.
        assert (Hshown : fst (page_crew_shown lib w result) = None).
        { unfold page_crew_shown. cbv zeta.
          destruct (json_loads lib result); rewrite ?Haccept; reflexivity. }
        rewrite Hshown.
        destruct (Hpage_shown result) as (Sp & _ & _).
        count_all. rewrite Sp. reflexivity.
      * unfold console_fallback, page_fallback. cbv zeta.
        rewrite unprintable_text, Hprintable, Haccept.
        destruct (llm_has_call w).
        -- destruct (llm_call w calls (App.llm g) (App.extraction_prompt q))
             as [req|e2];
             [destruct (unprintable req) | ];
             rewrite ?Haccept; reflexivity.
        -- rewrite Haccept. reflexivity.
Qed.

Lemma console_and_web_share_policy_witness :
  service_history [EInput App.input_prompt] = service_history []
  /\ strip (lit " a diesel sedan under 10 lakh ") <> []
  /\ App.is_exit_command Examples.lib0
       (strip (lit " a diesel sedan under 10 lakh ")) = false
  /\ page_accepts_all Examples.w_down
  /\ policy_events
       (snd (App.iteration Examples.lib0 Examples.g0 Examples.w_down
               (lit " a diesel sedan under 10 lakh ")
               [EInput App.input_prompt]))
     = policy_events
         (snd (Ui.processing Examples.lib0 Examples.g0 Examples.w_down
                 (strip (lit " a diesel sedan under 10 lakh ")) [])).
Proof.
  assert (F : strip (lit " a diesel sedan under 10 lakh ") <> [])
    by (vm_compute; discriminate).
  assert (Q : App.is_exit_command Examples.lib0
                (strip (lit " a diesel sedan under 10 lakh ")) = false)
    by (vm_compute; reflexivity).
  assert (A : page_accepts_all Examples.w_down) by (intros element; reflexivity).
  split; [reflexivity|]. split; [exact F|]. split; [exact Q|].
  split; [exact A|].
  destruct (console_and_web_share_policy Examples.lib0 Examples.g0
              Examples.w_down [EInput App.input_prompt] []
              (lit " a diesel sedan under 10 lakh ") eq_refl F Q)
    as (_ & _ & _ & _ & _ & _ & _ & Hpolicy).
  apply Hpolicy; [exact A|]. vm_compute. reflexivity.
Defined.

(** C10 as stated fails: on the same text the two entry points do not
    make the same requests.  A long text with blanks around it reaches the
    client in a fallback prompt that holds the stripped text on the
    console and the text as typed on the page; a short one is looked up
    under two different names; [exit] is a command on the console and
    a car to look up on the page; and when the error of the crew cannot
    be printed, the console makes no fallback call at all. *)
Lemma console_and_page_differ_on_same_text :
  llm_calls
    (snd (App.iteration Examples.lib0 Examples.g0 Examples.w_down
            (lit " a diesel sedan under 10 lakh ") []))
  = [ELlmCall (App.llm Examples.g0)
       (App.extraction_prompt (lit "a diesel sedan under 10 lakh")) []]
  /\ llm_calls
       (snd (Ui.processing Examples.lib0 Examples.g0 Examples.w_down
               (lit " a diesel sedan under 10 lakh ") []))
     = [ELlmCall (App.llm Examples.g0)
          (App.extraction_prompt (lit " a diesel sedan under 10 lakh ")) []]
  /\ App.extraction_prompt (lit "a diesel sedan under 10 lakh")
     <> App.extraction_prompt (lit " a diesel sedan under 10 lakh ")
  /\ direct_lookups
       (snd (App.iteration Examples.lib0 Examples.g0 Examples.w_up
               (lit " Swift ") []))
     = [EDirectLookup (lit "Swift")]
  /\ direct_lookups
       (snd (Ui.processing Examples.lib0 Examples.g0 Examples.w_up
               (lit " Swift ") []))
     = [EDirectLookup (lit " Swift ")]
  /\ policy_events
       (snd (App.iteration Examples.lib0 Examples.g0 Examples.w_up
               (lit "exit") []))
     = []
  /\ direct_lookups
       (snd (Ui.processing Examples.lib0 Examples.g0 Examples.w_up
               (lit "exit") []))
     = [EDirectLookup (lit "exit")]
  /\ policy_events
       (snd (App.iteration Examples.lib0 Examples.g0 Examples.w_down
               (lit " a diesel sedan under 10 lakh ") []))
     <> policy_events
          (snd (Ui.processing Examples.lib0 Examples.g0 Examples.w_down
                  (lit " a diesel sedan under 10 lakh ") []))
  /\ crew_kickoff Cases.w_crew_surrogate (service_history [])
       [(lit "query", VStr (lit "a diesel sedan under 10 lakh"))]
     = Failed (lit "bad " ++ [0xD83D])
  /\ llm_calls
       (snd (App.iteration Examples.lib0 Examples.g0 Cases.w_crew_surrogate
               (lit "a diesel sedan under 10 lakh") []))
     = [].
Proof.
  split; [vm_compute; reflexivity|].
  split; [vm_compute; reflexivity|].
  split; [vm_compute; discriminate|].
  split; [vm_compute; reflexivity|].
  split; [vm_compute; reflexivity|].
  split; [vm_compute; reflexivity|].
  split; [vm_compute; reflexivity|].
  split; [vm_compute; discriminate|].
  split; vm_compute; reflexivity.
Qed.

(** ** Beyond the contract of the client: the edges of the direct lookup *)

(** X2: a client object without the method [call] is never called: the
    direct lookup goes straight to the raw endpoint, once, and returns
    what the fallback makes of the response. *)
Theorem direct_lookup_without_method
    (lib : PyLib) (g : App.Globals) (w : World) (h : list event) (name : str) :
  llm_has_call w = false ->
  let prompt := App.direct_prompt name in
  App.direct_car_lookup_text lib g w name h
  = (Ok (fallback_value lib
           (decoded_response
              (requests_post w (service_history h) (App.fallback_url g)
                 (App.fallback_payload prompt) 30))),
     [EDirectLookup name;
      EHttpPost (App.fallback_url g) (App.fallback_payload prompt) 30]).
Proof.
  intros Hcall prompt.
  unfold App.direct_car_lookup_text, bind, emit. cbv beta iota. fold prompt.
  rewrite (primary_attempt_no_method lib g w _ _ Hcall).
  rewrite http_fallback_run.
  rewrite app_nil_r, service_history_display by reflexivity.
  reflexivity.
Qed.

Lemma direct_lookup_without_method_witness :
  llm_has_call Cases.w_no_method = false
  /\ App.direct_car_lookup_text Examples.lib0 Examples.g0 Cases.w_no_method
       (lit "Swift") []
     = (Ok (VStr (lit "ok")),
        [EDirectLookup (lit "Swift");
         EHttpPost (App.fallback_url Examples.g0)
           (App.fallback_payload (App.direct_prompt (lit "Swift"))) 30]).
Proof.
  split; [reflexivity|].
  rewrite (direct_lookup_without_method Examples.lib0 Examples.g0
             Cases.w_no_method [] (lit "Swift") eq_refl).
  vm_compute. reflexivity.
Defined.

(** X3: when the client returns a value that is not text, the direct
    lookup returns [json.dumps] of it without any request if the value is
    JSON-shaped, and turns to the raw endpoint, as after a failure, if
    [json.dumps] rejects it. *)
Theorem direct_lookup_non_text_answer
    (lib : PyLib) (g : App.Globals) (w : World) (h : list event) (name : str) :
  llm_has_call w = true ->
  let prompt := App.direct_prompt name in
  let call := ELlmCall (App.llm g) prompt [] in
  let request :=
    EHttpPost (App.fallback_url g) (App.fallback_payload prompt) 30 in
  let answer := llm_call w (service_history h) (App.llm g) prompt in
  let run := App.direct_car_lookup_text lib g w name h in
  (forall j, answer = Returned (VJson j) -> (forall s, j <> JStr s) ->
     run = (Ok (VStr (json_dumps_json lib j)), [EDirectLookup name; call]))
  /\ (forall o, answer = Returned (VObj o) ->
        run = (Ok (fallback_value lib
                     (decoded_response
                        (requests_post w (service_history h ++ [call])
                           (App.fallback_url g) (App.fallback_payload prompt) 30))),
               [EDirectLookup name; call; request])).
Proof.
  intros Hcall prompt call request answer run. subst run.
  rewrite (direct_lookup_run lib g w name h Hcall). cbv zeta.
  fold prompt call request answer. split.
  - intros j -> Hj. destruct j; try reflexivity. elim (Hj s). reflexivity.
  - intros o ->. reflexivity.
Qed.

Lemma direct_lookup_non_text_answer_witness :
  llm_has_call (Cases.w_answers (VJson (JBool true))) = true
  /\ App.direct_car_lookup_text Examples.lib0 Examples.g0
       (Cases.w_answers (VJson (JBool true))) (lit "Swift") []
     = (Ok (VStr (lit "true")),
        [EDirectLookup (lit "Swift");
         ELlmCall (App.llm Examples.g0) (App.direct_prompt (lit "Swift")) []]).
Proof.
  split; [reflexivity|].
  apply (proj1 (direct_lookup_non_text_answer Examples.lib0 Examples.g0
                  (Cases.w_answers (VJson (JBool true))) [] (lit "Swift")
                  eq_refl) (JBool true)); [reflexivity | discriminate].
Defined.

(** X4: whatever the services do and whatever the client object is, the
    direct lookup returns a value, calls the client at most once and the
    raw endpoint at most once, always one of the two, both with the same
    prompt, and neither routes nor calls the crew. *)
Theorem direct_lookup_total
    (lib : PyLib) (g : App.Globals) (w : World) (h : list event) (name : str) :
  let prompt := App.direct_prompt name in
  let call := ELlmCall (App.llm g) prompt [] in
  let request :=
    EHttpPost (App.fallback_url g) (App.fallback_payload prompt) 30 in
  exists v t,
    App.direct_car_lookup_text lib g w name h = (Ok v, t)
    /\ (llm_calls t = [] \/ llm_calls t = [call])
    /\ (http_posts t = [] \/ http_posts t = [request])
    /\ (llm_calls t = [] -> http_posts t = [request])
    /\ crew_kickoffs t = []
    /\ routes t = [].
Proof.
  intros prompt call request.
  destruct (direct_lookup_returns lib g w name h) as (v & t & Hrun).
  exists v, t. split; [exact Hrun|].
  assert (Ht : t = snd (App.direct_car_lookup_text lib g w name h))
    by (rewrite Hrun; reflexivity).
  destruct (direct_lookup_trace lib g w h name) as [E | [E | E]];
    rewrite <- Ht in E; rewrite E; cbn;
    repeat split; auto; discriminate.
Qed.

(** X5: a direct lookup can return a value that is not text (the [text]
    field of the response holds a number, say); both entry points then
    show that value as it is, since [json.loads] takes text only. *)
Theorem non_text_lookup_result_shown_raw
    (lib : PyLib) (g : App.Globals) (w : World) (h : list event)
    (q : str) (raw : pyval) (t1 : list event) :
  strip q <> [] ->
  (List.length (split q) <= 3)%nat ->
  App.direct_car_lookup_text lib g w q h = (Ok raw, t1) ->
  (forall s, raw <> VStr s) ->
  snd (App.handle_query lib g w q h)
  = ERoute q :: t1
    ++ [EPrint [VStr (nl ++ lit "--- Car Details (raw) ---")]; EPrint [raw]]
  /\ snd (Ui.processing lib g w q h)
     = EStSpinnerEnter (lit "Processing your query... " ++ [0x23F3])
       :: ERoute q :: t1
       ++ [EStSubheader ([0x1F4DD] ++ lit " Car Details (Direct Lookup)");
           EStCode raw;
           EStSpinnerExit].
Proof.
  intros Hfilled Hshort Hrun Hraw.
  rewrite (console_direct_run lib g w q h raw t1 Hshort Hrun).
  rewrite (web_direct_run lib g w q h raw t1 Hfilled Hshort Hrun).
  assert (Hloads : exists e, json_loads lib raw = Raise e).
  { destruct raw as [j|o]; [|cbn; eauto].
    destruct j; cbn; eauto. elim (Hraw s). reflexivity. }
  destruct Hloads as [e Hloads].
  unfold console_shown, page_shown. rewrite Hloads. split; reflexivity.
Qed.

Lemma non_text_lookup_result_shown_raw_witness :
  let w := Examples.w_body (Examples.gemini_body (JInt 5)) in
  let t1 := [EDirectLookup (lit "Swift");
             ELlmCall (App.llm Examples.g0) (App.direct_prompt (lit "Swift")) [];
             EHttpPost (App.fallback_url Examples.g0)
               (App.fallback_payload (App.direct_prompt (lit "Swift"))) 30] in
  App.direct_car_lookup_text Examples.lib0 Examples.g0 w (lit "Swift") []
  = (Ok (VJson (JInt 5)), t1)
  /\ snd (App.handle_query Examples.lib0 Examples.g0 w (lit "Swift") [])
     = ERoute (lit "Swift") :: t1
       ++ [EPrint [VStr (nl ++ lit "--- Car Details (raw) ---")];
           EPrint [VJson (JInt 5)]].
Proof.
  cbv zeta.
  assert (R : App.direct_car_lookup_text Examples.lib0 Examples.g0
                (Examples.w_body (Examples.gemini_body (JInt 5))) (lit "Swift") []
              = (Ok (VJson (JInt 5)),
                 [EDirectLookup (lit "Swift");
                  ELlmCall (App.llm Examples.g0) (App.direct_prompt (lit "Swift")) [];
                  EHttpPost (App.fallback_url Examples.g0)
                    (App.fallback_payload (App.direct_prompt (lit "Swift"))) 30]))
    by (vm_compute; reflexivity).
  split; [exact R|].
  apply (non_text_lookup_result_shown_raw Examples.lib0 Examples.g0 _ []
           (lit "Swift") _ _);
    [vm_compute; discriminate | vm_compute; lia | exact R | discriminate].
Defined.

(** X7: after a start-up that succeeds, every request the direct lookup
    sends to the raw endpoint goes to the [generateContent] address of
    the model [gemini-2.0-flash] with, in its query string, the very key
    start-up resolved and built the client with, and waits 30 seconds at
    most. *)
Theorem fallback_request_carries_startup_key
    (lib : PyLib) (host : App.Host) (g : App.Globals) (w : World)
    (h : list event) (name : str) :
  App.module_init host = Ok g ->
  exists key,
    App.resolve_api_key host = Some key
    /\ key <> []
    /\ api_key (App.llm g) = key
    /\ Forall
         (fun e => exists payload,
            e = EHttpPost
                  (lit "https://generativelanguage.googleapis.com/v1beta/models/gemini-2.0-flash:generateContent?key="
                   ++ key)
                  payload 30)
         (http_posts (snd (App.direct_car_lookup_text lib g w name h))).
Proof.
  intros Hinit.
  destruct (module_init_globals host g Hinit) as (Hmodel & Hllm & Hkey & Hne).
  exists (App.GEMINI_API_KEY g).
  split; [exact Hkey|]. split; [exact Hne|].
  split; [rewrite Hllm; reflexivity|].
  assert (Hurl : App.fallback_url g
                 = lit "https://generativelanguage.googleapis.com/v1beta/models/gemini-2.0-flash:generateContent?key="
                   ++ App.GEMINI_API_KEY g).
  { unfold App.fallback_url. rewrite Hmodel.
    rewrite !app_assoc. reflexivity. }
  destruct (direct_lookup_trace lib g w h name) as [-> | [-> | ->]];
    cbn [http_posts List.filter]; repeat constructor;
    rewrite Hurl; eauto.
Qed.

Lemma fallback_request_carries_startup_key_witness :
  App.module_init Examples.local_host = Ok Examples.g0
  /\ exists key,
       App.resolve_api_key Examples.local_host = Some key
       /\ key <> []
       /\ api_key (App.llm Examples.g0) = key
       /\ Forall
            (fun e => exists payload,
               e = EHttpPost
                     (lit "https://generativelanguage.googleapis.com/v1beta/models/gemini-2.0-flash:generateContent?key="
                      ++ key)
                     payload 30)
            (http_posts (snd (App.direct_car_lookup_text Examples.lib0
                                Examples.g0 Examples.w_down (lit "Swift") []))).
Proof.
  assert (I : App.module_init Examples.local_host = Ok Examples.g0)
    by (vm_compute; reflexivity).
  split; [exact I|].
  exact (fallback_request_carries_startup_key Examples.lib0 Examples.local_host
           Examples.g0 Examples.w_down [] (lit "Swift") I).
Defined.

(** ** Start-up: a value that is present but empty *)

(** X6: a source that answers with the empty string is not passed over
    for the next one: an empty secret makes start-up fail whatever the
    environment and the [.env] file hold, and, when the secret cannot be
    read, an empty environment variable makes it fail whatever the
    [.env] file holds. *)
Theorem empty_value_shadows_later_sources (host : App.Host) :
  (App.read_secret host = Returned [] ->
   App.module_init host = Raise (Exception App.missing_key_message))
  /\ (forall msg,
        App.read_secret host = Failed msg ->
        App.os_environ host !! App.key_name = Some [] ->
        App.module_init host = Raise (Exception App.missing_key_message)).
Proof.
  unfold App.module_init, App.resolve_api_key. split.
  - intros ->. reflexivity.
  - intros msg -> Henv. rewrite read_local_sources, Henv. reflexivity.
Qed.

Example init_shadowed_env :
  App.dotenv_file Cases.shadowed_host !! App.key_name = Some (lit "k-123")
  /\ App.module_init Cases.shadowed_host
     = Raise (Exception App.missing_key_message).
Proof. split; vm_compute; reflexivity. Qed.

(** ** The console session *)

Section SessionRuns.

Variable lib : PyLib.
Variable g : App.Globals.
Variable w : World.

Implicit Types (h t : list event) (q line : str) (stdin : list str).






Lemma main_loop_stops_at_command before cmd after h :
  exits lib cmd = true ->
  App.main_loop lib g w (before ++ cmd :: after) h
  = App.main_loop lib g w (before ++ [cmd]) h.
Proof.
  intros Hcmd. revert h.
  induction before as [|line before IH]; intros h; cbn [app].
  - rewrite !(main_loop_break lib g w cmd _ h _
                (iteration_command lib g w cmd _ Hcmd)).
    reflexivity.
  - destruct (App.iteration lib g w line (h ++ [EInput App.input_prompt]))
      as [[[|]|x] t] eqn:Hiter.
    + rewrite !(main_loop_again lib g w line _ h t Hiter). rewrite IH.
      reflexivity.
    + rewrite !(main_loop_break lib g w line _ h t Hiter). reflexivity.
    + rewrite !(main_loop_raise lib g w line _ h x t Hiter). reflexivity.
Qed.

End SessionRuns.






(** X10: what follows a command on the input is never read: the session
    is the same as if the input ended with the command. *)
Theorem input_after_command_ignored
    (lib : PyLib) (g : App.Globals) (w : World) (h : list event)
    (before after : list str) (cmd : str) :
  exits lib cmd = true ->
  App.main lib g w (before ++ cmd :: after) h
  = App.main lib g w (before ++ [cmd]) h.
Proof.
  intros Hcmd. unfold App.main, bind.
  destruct (App.print [VStr App.banner] h) as [[u|e] es]; [|reflexivity].
  rewrite (main_loop_stops_at_command lib g w before cmd after _ Hcmd).
  reflexivity.
Qed.

Lemma input_after_command_ignored_witness :
  exits Examples.lib0 (lit " Quit ") = true
  /\ App.main Examples.lib0 Examples.g0 Examples.w_up
       ([lit "Swift"] ++ lit " Quit " :: [lit "Honda City"]) []
     = App.main Examples.lib0 Examples.g0 Examples.w_up
         ([lit "Swift"] ++ [lit " Quit "]) [].
Proof.
  assert (E : exits Examples.lib0 (lit " Quit ") = true)
    by (vm_compute; reflexivity).
  split; [exact E|].
  exact (input_after_command_ignored Examples.lib0 Examples.g0 Examples.w_up []
           [lit "Swift"] [lit "Honda City"] (lit " Quit ") E).
Defined.

(** ** The page as a whole, and long queries *)

Section PageRuns.

Variable lib : PyLib.
Variable g : App.Globals.
Variable w : World.

Implicit Types (h t : list event) (q : str).

(** A run of the script renders the widgets, then processes the text if
    the button was pressed. *)
Lemma script_run q (run_button : bool) h :
  Ui.script lib g w q run_button h
  = (let (r, t) := if run_button
                   then Ui.processing lib g w q (h ++ page_widgets)
                   else (Ok tt, []) in
     (r, page_widgets ++ t)).
Proof.
  unfold Ui.script, bind, emit. cbv beta iota.
  rewrite <- !app_assoc. cbn [app]. fold page_widgets.
  destruct run_button; [|reflexivity].
  unfold page_widgets at 1.
  destruct (Ui.processing lib g w q _) as [r t]. reflexivity.
Qed.

Lemma processing_blank q h :
  strip q = [] ->
  Ui.processing lib g w q h
  = (Raise StopException, [EStWarning (lit "Please enter some text!")]).
Proof. intros H. unfold Ui.processing. rewrite H. reflexivity. Qed.

(** Where the spinner stands in a run of [processing], whatever the page
    accepts. *)
Lemma processing_spinner q h :
  let t := snd (Ui.processing lib g w q h) in
  spinner_events t
  = (if is_empty (strip q) then []
     else [EStSpinnerEnter (lit "Processing your query... " ++ [0x23F3]);
           EStSpinnerExit])
  /\ (strip q <> [] -> List.last t (ERoute q) = EStSpinnerExit).
Proof.
  cbv zeta.
  destruct (strip q) as [|c s] eqn:Hstrip.
  - rewrite (processing_blank q h Hstrip). cbn. split; congruence.
  - assert (Hfilled : strip q <> []) by congruence.
    cbn [is_empty].
    destruct (Nat.le_gt_cases (List.length (split q)) 3) as [Hshort | Hlong].
    + destruct (direct_lookup_returns lib g w q h) as (raw & t1 & Hrun).
      destruct (direct_lookup_markers lib g w h q) as (_ & _ & _ & _ & Hs).
      rewrite Hrun in Hs.
      destruct (page_shown_events lib w raw) as (_ & Ss & _).
      rewrite (web_direct_run lib g w q h raw t1 Hfilled Hshort Hrun).
      cbn [snd]. split.
      * count_all. rewrite Hs, Ss. reflexivity.
      * intros _.
        change (EStSpinnerEnter (lit "Processing your query... " ++ [0x23F3])
                :: ERoute q :: t1 ++ ?l ++ [EStSpinnerExit])
          with ((EStSpinnerEnter (lit "Processing your query... " ++ [0x23F3])
                 :: ERoute q :: t1) ++ l ++ [EStSpinnerExit]).
        rewrite app_assoc. apply List.last_last.
    + rewrite (web_chain_run lib g w q h Hlong). cbv zeta.
      destruct (crew_kickoff w _ _) as [result|e].
      * destruct (page_crew_shown_events lib w result) as (_ & Ss & _).
        destruct (fst (page_crew_shown lib w result)) as [msg|].
        -- destruct (page_fallback_events g w q msg
                       (service_history h
                        ++ [ECrewKickoff [(lit "query", VStr q)]]))
             as (_ & _ & Fs & _).
           cbn [snd]. split.
           ++ count_all. rewrite Ss, Fs. reflexivity.
           ++ intros _. rewrite !app_assoc. apply List.last_last.
        -- cbn [snd]. split.
           ++ count_all. rewrite Ss. reflexivity.
           ++ intros _. rewrite !app_assoc. apply List.last_last.
      * destruct (page_fallback_events g w q e
                    (service_history h
                     ++ [ECrewKickoff [(lit "query", VStr q)]]))
          as (_ & _ & Fs & _).
        cbn [snd]. split.
        -- count_all. rewrite Fs. reflexivity.
        -- intros _. rewrite !app_assoc. apply List.last_last.
Qed.

(** How a run of [processing] ends on a page that accepts every
    element. *)
Lemma processing_result q h :
  page_accepts_all w ->
  fst (Ui.processing lib g w q h)
  = (if is_empty (strip q) || is_short q then Raise StopException else Ok tt).
Proof.
  intros Haccept.
  destruct (strip q) as [|c s] eqn:Hstrip.
  - rewrite (processing_blank q h Hstrip). reflexivity.
  - assert (Hfilled : strip q <> []) by congruence.
    cbn [is_empty orb]. unfold is_short.
    destruct (Nat.leb_spec (List.length (split q)) 3) as [Hshort | Hlong].
    + destruct (direct_lookup_returns lib g w q h) as (raw & t1 & Hrun).
      rewrite (web_direct_run lib g w q h raw t1 Hfilled Hshort Hrun).
      unfold page_shown.
      destruct (json_loads lib raw); rewrite ?Haccept; reflexivity.
    + rewrite (web_chain_run lib g w q h Hlong). cbv zeta.
      destruct (crew_kickoff w _ _) as [result|e].
      * assert (Hshown : fst (page_crew_shown lib w result) = None).
        { unfold page_crew_shown. cbv zeta.
          destruct (json_loads lib result); rewrite ?Haccept; reflexivity. }
        rewrite Hshown. reflexivity.
      * unfold page_fallback. cbv zeta. rewrite Haccept.
        destruct (llm_has_call w); [|rewrite Haccept; reflexivity].
        destruct (llm_call w _ _ _); rewrite !Haccept; reflexivity.
Qed.

End PageRuns.

(** X11: a run of the page renders its four widgets first; without the
    button it does nothing more; with the button and a blank text it
    warns and stops; and on a page that accepts every element it is asked
    to show, the run never ends with an exception: it ends by [st.stop()]
    when the text is blank or has at most three tokens, and runs to the
    end of the script on a longer text. *)
Theorem web_run_outcome
    (lib : PyLib) (g : App.Globals) (w : World) (h : list event)
    (q : str) (run_button : bool) :
  let run := Ui.script lib g w q run_button h in
  (exists t, snd run = page_widgets ++ t)
  /\ (run_button = false -> run = (Ok tt, page_widgets))
  /\ (run_button = true -> strip q = [] ->
      run = (Raise StopException,
             page_widgets ++ [EStWarning (lit "Please enter some text!")]))
  /\ (page_accepts_all w ->
      fst run = (if run_button && (is_empty (strip q) || is_short q)
                 then Raise StopException else Ok tt)).
Proof.
  cbv zeta. rewrite script_run.
  destruct run_button; cbn [andb].
  - pose proof (processing_result lib g w q (h ++ page_widgets)) as Hr.
    pose proof (processing_blank lib g w q (h ++ page_widgets)) as Hb.
    destruct (Ui.processing lib g w q (h ++ page_widgets)) as [r t].
    cbn [fst snd] in *. split; [eauto|]. split; [discriminate|].
    split; [|exact Hr].
    intros _ Hblank. specialize (Hb Hblank). injection Hb as -> ->.
    reflexivity.
  - cbn [fst snd]. rewrite app_nil_r.
    split; [exists []; rewrite app_nil_r; reflexivity|].
    split; [reflexivity|]. split; [discriminate | reflexivity].
Qed.

Lemma web_run_outcome_witness :
  page_accepts_all Examples.w_down
  /\ fst (Ui.script Examples.lib0 Examples.g0 Examples.w_down
            (lit "a diesel sedan under 10 lakh") true [])
     = Ok tt
  /\ fst (Ui.script Examples.lib0 Examples.g0 Examples.w_down
            (lit "Swift") true [])
     = Raise StopException.
Proof.
  assert (A : page_accepts_all Examples.w_down) by (intros element; reflexivity).
  split; [exact A|]. split.
  - rewrite (proj2 (proj2 (proj2
               (web_run_outcome Examples.lib0 Examples.g0 Examples.w_down []
                  (lit "a diesel sedan under 10 lakh") true))) A).
    vm_compute. reflexivity.
  - rewrite (proj2 (proj2 (proj2
               (web_run_outcome Examples.lib0 Examples.g0 Examples.w_down []
                  (lit "Swift") true))) A).
    vm_compute. reflexivity.
Defined.

(** X12: the spinner is always left: a text that is not blank enters it
    once and leaves it once, as the last event of the run, also when
    [st.stop()] ends the script inside the block; a blank text never
    enters it. *)
Theorem spinner_always_left
    (lib : PyLib) (g : App.Globals) (w : World) (h : list event) (q : str) :
  let t := snd (Ui.processing lib g w q h) in
  spinner_events t
  = (if is_empty (strip q) then []
     else [EStSpinnerEnter (lit "Processing your query... " ++ [0x23F3]);
           EStSpinnerExit])
  /\ (strip q <> [] -> List.last t (ERoute q) = EStSpinnerExit).
Proof.
  cbv zeta. exact (processing_spinner lib g w q h).
Qed.

(** X13: when the crew returns on a long query and the result can be
    displayed, neither entry point calls the client or the raw endpoint.
    The console prints the result as it is, without decoding it; the page
    shows it with [st.json] when it is text that [json.loads] accepts, and
    with [st.text] when it is text that does not decode or is not text at
    all.  The display of the result stands inside the [try] of the chain:
    a result the console cannot print sends the request to the handler,
    which reports the error of [print] and makes the fallback call. *)
Theorem chain_success_display
    (lib : PyLib) (g : App.Globals) (w : World) (h : list event)
    (q : str) (result : pyval) :
  (3 < List.length (split q))%nat ->
  crew_kickoff w (service_history h) [(lit "query", VStr q)] = Returned result ->
  let inputs := [(lit "query", VStr q)] in
  let enter := EStSpinnerEnter (lit "Processing your query... " ++ [0x23F3]) in
  let heading := EStSubheader ([0x1F916] ++ lit " CrewAI Output") in
  let agent_output := EPrint [VStr (nl ++ lit "Agent Output:" ++ nl)] in
  let fallback_call := ELlmCall (App.llm g) (App.extraction_prompt q) [] in
  (unprintable result = None ->
   App.handle_query lib g w q h
   = (Ok tt, [ERoute q; ECrewKickoff inputs; agent_output; EPrint [result]]))
  /\ (forall msg, unprintable result = Some msg ->
        llm_has_call w = true ->
        exists t,
          snd (App.handle_query lib g w q h)
          = [ERoute q; ECrewKickoff inputs; agent_output; EPrint [result];
             EPrint [VStr (lit "Crew run error:"); VObj msg];
             EPrint [VStr (nl ++ lit "FALLBACK: Extracting requirements using LLM directly...")];
             fallback_call] ++ t)
  /\ (forall s parsed,
        result = VStr s -> json_loads_str lib s = Returned parsed ->
        st_refuses w (EStJson parsed) = None ->
        Ui.processing lib g w q h
        = (Ok tt, [enter; ERoute q; ECrewKickoff inputs; heading;
                   EStJson parsed; EStSpinnerExit]))
  /\ (forall s msg,
        result = VStr s -> json_loads_str lib s = Failed msg ->
        st_refuses w (EStText result) = None ->
        Ui.processing lib g w q h
        = (Ok tt, [enter; ERoute q; ECrewKickoff inputs; heading;
                   EStText result; EStSpinnerExit]))
  /\ ((forall s, result <> VStr s) ->
      st_refuses w (EStText result) = None ->
      Ui.processing lib g w q h
      = (Ok tt, [enter; ERoute q; ECrewKickoff inputs; heading;
                 EStText result; EStSpinnerExit])).
Proof.
  intros Hlong Hcrew inputs enter heading agent_output fallback_call.
  rewrite (console_chain_run lib g w q h Hlong).
  rewrite (web_chain_run lib g w q h Hlong).
  cbv zeta. fold inputs in Hcrew |- *. rewrite Hcrew.
  unfold page_crew_shown. cbv zeta.
  split; [|split; [|split; [|split]]].
  - intros ->. reflexivity.
  - intros msg Hmsg Hcall. rewrite Hmsg.
    unfold console_fallback. cbv zeta.
    rewrite (unprintable_message result msg Hmsg), Hcall.
    destruct (llm_call w _ _ _) as [req|e2];
      [destruct (unprintable req)|]; cbn [snd app]; eexists; reflexivity.
  - intros s parsed -> Hloads Hshown.
    assert (L : json_loads lib (VStr s) = Ok parsed)
      by (unfold VStr; cbn [json_loads]; rewrite Hloads; reflexivity).
    rewrite L, Hshown. reflexivity.
  - intros s msg -> Hloads Hshown.
    assert (L : json_loads lib (VStr s) = Raise (Exception msg))
      by (unfold VStr; cbn [json_loads]; rewrite Hloads; reflexivity).
    rewrite L, Hshown. reflexivity.
  - intros Hraw Hshown.
    assert (Hloads : exists e, json_loads lib result = Raise e).
    { destruct result as [j|o]; [|cbn; eauto].
      destruct j; cbn; eauto. elim (Hraw s). reflexivity. }
    destruct Hloads as [e Hloads]. rewrite Hloads, Hshown. reflexivity.
Qed.

Lemma chain_success_display_witness :
  (3 < List.length (split (lit "a diesel sedan under 10 lakh")))%nat
  /\ crew_kickoff Examples.w_up (service_history [])
       [(lit "query", VStr (lit "a diesel sedan under 10 lakh"))]
     = Returned (VObj (lit "Maruti Swift"))
  /\ Ui.processing Examples.lib0 Examples.g0 Examples.w_up
       (lit "a diesel sedan under 10 lakh") []
     = (Ok tt,
        [EStSpinnerEnter (lit "Processing your query... " ++ [0x23F3]);
         ERoute (lit "a diesel sedan under 10 lakh");
         ECrewKickoff [(lit "query", VStr (lit "a diesel sedan under 10 lakh"))];
         EStSubheader ([0x1F916] ++ lit " CrewAI Output");
         EStText (VObj (lit "Maruti Swift"));
         EStSpinnerExit]).
Proof.
  assert (L : (3 < List.length (split (lit "a diesel sedan under 10 lakh")))%nat)
    by (vm_compute; lia).
  split; [exact L|]. split; [reflexivity|].
  apply (chain_success_display Examples.lib0 Examples.g0 Examples.w_up []
           (lit "a diesel sedan under 10 lakh") (VObj (lit "Maruti Swift"))
           L eq_refl); [discriminate | reflexivity].
Defined.

(** The crew returns a result that holds a lone surrogate: the console
    cannot print it, and the request goes on in the handler. *)
Example unprintable_result_runs_fallback :
  App.handle_query Examples.lib0 Examples.g0 Cases.w_surrogate_answer
    (lit "a diesel sedan under 10 lakh") []
  = (Ok tt,
     [ERoute (lit "a diesel sedan under 10 lakh");
      ECrewKickoff [(lit "query", VStr (lit "a diesel sedan under 10 lakh"))];
      EPrint [VStr (nl ++ lit "Agent Output:" ++ nl)];
      EPrint [VObj (lit "x" ++ [0xD83D])];
      EPrint [VStr (lit "Crew run error:");
              VObj (lit "'utf-8' codec can't encode character '\ud83d' in position 1: surrogates not allowed")];
      EPrint [VStr (nl ++ lit "FALLBACK: Extracting requirements using LLM directly...")];
      ELlmCall (App.llm Examples.g0)
        (App.extraction_prompt (lit "a diesel sedan under 10 lakh")) [];
      EPrint [VStr (lit "Requirements:"); VStr Cases.surrogate_json]]).
Proof. vm_compute. reflexivity. Qed.

(** X14: the fallback after a failure of the crew reads [llm.call]
    without the guard the direct lookup has: with a client object that
    lacks the method, no call is made, the attribute error is caught and
    shown as the fallback's error, and the request ends normally, provided
    the error of the crew and that message can be displayed. *)
Theorem chain_failure_without_method
    (lib : PyLib) (g : App.Globals) (w : World) (h : list event) (q e : str) :
  llm_has_call w = false ->
  (3 < List.length (split q))%nat ->
  crew_kickoff w (service_history h) [(lit "query", VStr q)] = Failed e ->
  let inputs := [(lit "query", VStr q)] in
  (has_surrogate e = false ->
   App.handle_query lib g w q h
   = (Ok tt,
      [ERoute q; ECrewKickoff inputs;
       EPrint [VStr (lit "Crew run error:"); VObj e];
       EPrint [VStr (nl ++ lit "FALLBACK: Extracting requirements using LLM directly...")];
       EPrint [VStr (lit "Fallback error:");
               VObj (lit "'LLM' object has no attribute 'call'")]]))
  /\ (st_refuses w (EStError ([0x274C] ++ lit " Error: " ++ e)) = None ->
      st_refuses w
        (EStError (lit "Fallback failed: "
                   ++ lit "'LLM' object has no attribute 'call'")) = None ->
      Ui.processing lib g w q h
      = (Ok tt,
         [EStSpinnerEnter (lit "Processing your query... " ++ [0x23F3]);
          ERoute q; ECrewKickoff inputs;
          EStError ([0x274C] ++ lit " Error: " ++ e);
          EStInfo (lit "Running fallback...");
          EStError (lit "Fallback failed: "
                    ++ lit "'LLM' object has no attribute 'call'");
          EStSpinnerExit]))
  /\ llm_calls (snd (App.handle_query lib g w q h)) = []
  /\ llm_calls (snd (Ui.processing lib g w q h)) = [].
Proof.
  intros Hcall Hlong Hcrew inputs.
  rewrite (console_chain_run lib g w q h Hlong).
  rewrite (web_chain_run lib g w q h Hlong).
  cbv zeta. fold inputs in Hcrew |- *. rewrite Hcrew.
  unfold console_fallback, page_fallback. cbv zeta.
  rewrite Hcall, unprintable_text.
  change (page_error e) with (EStError ([0x274C] ++ lit " Error: " ++ e)).
  change (page_fallback_error no_call_message)
    with (EStError (lit "Fallback failed: "
                    ++ lit "'LLM' object has no attribute 'call'")).
  split; [|split; [|split]].
  - intros ->. reflexivity.
  - intros -> ->. reflexivity.
  - destruct (has_surrogate e); reflexivity.
  - destruct (st_refuses w (EStError ([0x274C] ++ lit " Error: " ++ e)));
      reflexivity.
Qed.

Lemma chain_failure_without_method_witness :
  llm_has_call Cases.w_no_method = false
  /\ (3 < List.length (split (lit "a diesel sedan under 10 lakh")))%nat
  /\ crew_kickoff Cases.w_no_method (service_history [])
       [(lit "query", VStr (lit "a diesel sedan under 10 lakh"))]
     = Failed (lit "503")
  /\ llm_calls (snd (App.handle_query Examples.lib0 Examples.g0 Cases.w_no_method
                       (lit "a diesel sedan under 10 lakh") [])) = []
  /\ fst (Ui.processing Examples.lib0 Examples.g0 Cases.w_no_method
            (lit "a diesel sedan under 10 lakh") []) = Ok tt.
Proof.
  assert (L : (3 < List.length (split (lit "a diesel sedan under 10 lakh")))%nat)
    by (vm_compute; lia).
  split; [reflexivity|]. split; [exact L|]. split; [reflexivity|].
  destruct (chain_failure_without_method Examples.lib0 Examples.g0
              Cases.w_no_method [] (lit "a diesel sedan under 10 lakh")
              (lit "503") eq_refl L eq_refl) as (_ & Hweb & Hcalls & _).
  split; [exact Hcalls|].
  rewrite (Hweb eq_refl eq_refl). reflexivity.
Defined.
